(** * Gas estimation and RPC dispatch of the bundler: a shallow embedding

    The definitions below follow [MethodHandlerERC4337.ts] (trace walking,
    gas limits, [estimateUserOperationGas], [selectBeneficiary]) and
    [BundlerServer.ts] ([handleRpc], [handleMethod]).  BigInt values are
    integers of [Z]; BigInt division rounds toward zero and is [Z.quot]. *)

From Stdlib Require Import ZArith String List Ascii Lia Bool DecimalString.
Import ListNotations.
Open Scope string_scope.
Open Scope Z_scope.

(** ** Strings *)

(** The double-quote character of the template literal in
    [getSimulationErrorMessage]. *)
Definition dquote : string := String (ascii_of_nat 34) EmptyString.

(** [String.prototype.toLowerCase] on the ASCII range (addresses are hex
    strings). *)
Definition lower_ascii (c : ascii) : ascii :=
  let n := nat_of_ascii c in
  if ((65 <=? n) && (n <=? 90))%nat then ascii_of_nat (n + 32) else c.

Fixpoint toLowerCase (s : string) : string :=
  match s with
  | EmptyString => EmptyString
  | String c r => String (lower_ascii c) (toLowerCase r)
  end.

(** [occurs c s]: the character [c] appears in [s]. *)
Fixpoint occurs (c : ascii) (s : string) : bool :=
  match s with
  | EmptyString => false
  | String d r => Ascii.eqb c d || occurs c r
  end.

(** [carries s t]: [t] is a contiguous part of [s]. *)
Definition carries (s t : string) : Prop :=
  exists pre post, s = pre ++ t ++ post.

(** ** Trace frames *)

(** [type TraceItem].  [gas] and [gasUsed] are the hex quantities of the call
    tracer; the record holds the number [BigInt(...)] reads off them.  An
    absent [calls] behaves as the empty array in every function below. *)
Unset Elimination Schemes.
Inductive TraceItem : Type := mkTraceItem {
  from : string;
  gas : N;
  gasUsed : N;
  to : string;
  input : string;
  output : string;
  calls : list TraceItem;
  value : string;
  error : option string;
  type : string
}.
Set Elimination Schemes.

(** JavaScript truthiness of an optional string: [undefined] and the empty
    string are falsy. *)
Definition truthy (s : option string) : bool :=
  match s with
  | Some (String _ _) => true
  | _ => false
  end.

(** [`${x}`] for an optional string. *)
Definition template (s : option string) : string :=
  match s with
  | Some v => v
  | None => "undefined"
  end.

(** [!node.calls || node.calls.length === 0] *)
Definition noCalls (node : TraceItem) : bool :=
  match calls node with
  | [] => true
  | _ :: _ => false
  end.

Definition EXECUTE_USEROP_SELECTOR : string := "0x8dd7712f".
Definition VALIDATE_PAYMASTER_SELECTOR : string := "0x52b7512c".
Definition POSTOP_SELECTOR : string := "0x7c627b21".
Definition VERIFICATION_SELECTOR : string := "0x19822f7c".

(** ** Errors *)

(** The members of [ValidationErrors] this code raises. *)
Inductive ValidationErrors : Type :=
| InvalidFields
| SimulateValidation
| UserOperationReverted.

(** What a call can throw: an [RpcError(message, code, data)], the
    [TypeError] of a property read on [undefined], or an error raised by a
    collaborator. *)
Inductive JsError : Type :=
| RpcError (message : string) (code : ValidationErrors) (data : option TraceItem)
| TypeError (message : string)
| ExternalError (message : string).

Definition NO_CALL_MESSAGE : string := "No call was made. Was that intentional?".

(** ** Walking the trace *)

Definition getSimulationErrorMessage (traceItem : option TraceItem) : string :=
  match traceItem with
  | Some t =>
      type t ++ " " ++ input t ++ " from " ++ from t ++ " to " ++ to t
        ++ " reverted with " ++ dquote ++ template (error t) ++ ":" ++ dquote
        ++ " " ++ output t
  | None => "Unexpected simulation error"
  end.

(** [for (const call of calls) { const result = f(call); if (result) return result; }] *)
Fixpoint firstResult {A B : Type} (f : A -> option B) (l : list A) : option B :=
  match l with
  | [] => None
  | call :: rest =>
      match f call with
      | Some result => Some result
      | None => firstResult f rest
      end
  end.

Fixpoint findRevertedCall (node : TraceItem) : option TraceItem :=
  if noCalls node && truthy (error node) && negb (type node =? "STATICCALL")%string
  then Some node
  else firstResult findRevertedCall (calls node).

Fixpoint getCallFromTrace (trace : TraceItem) (from_ to_ selector : string)
  : option TraceItem :=
  if ((from trace =? from_) && (to trace =? to_)
      && (substring 0 10 (input trace) =? selector))%string
  then Some trace
  else firstResult (fun call => getCallFromTrace call from_ to_ selector) (calls trace).

Fixpoint getDepth (traceItem : TraceItem) : nat :=
  if noCalls traceItem then 1%nat
  else
    (fold_left
       (fun maxDepth call =>
          let callDepth := getDepth call in
          if (maxDepth <? callDepth)%nat then callDepth else maxDepth)
       (calls traceItem) 0 + 1)%nat.

Definition getCallGasLimit (call : option TraceItem) : JsError + Z :=
  match call with
  | None => inl (RpcError NO_CALL_MESSAGE UserOperationReverted None)
  | Some c =>
      if truthy (error c)
      then inl (RpcError (getSimulationErrorMessage (Some c)) UserOperationReverted (Some c))
      else
        let depth := Z.of_nat (getDepth c) in
        inr (Z.quot (Z.of_N (gasUsed c) * 64 ^ depth) (63 ^ depth) + 2000)
  end.

(** ** Reference notions for the trace walk *)

(** The frames of a trace in depth-first order, parent before children. *)
Fixpoint preorder (t : TraceItem) : list TraceItem :=
  t :: flat_map preorder (calls t).

(** The frame test of [findRevertedCall]. *)
Definition revertedLeaf (node : TraceItem) : bool :=
  noCalls node && truthy (error node) && negb (type node =? "STATICCALL")%string.

(** A leaf that carries an error, whatever its call type. *)
Definition erroredLeaf (node : TraceItem) : bool :=
  noCalls node && truthy (error node).

(** The frame test of [getCallFromTrace]. *)
Definition matchesCall (from_ to_ selector : string) (t : TraceItem) : bool :=
  ((from t =? from_) && (to t =? to_)
   && (substring 0 10 (input t) =? selector))%string.

(** ** User operations and the estimate *)

Module UserOperation.
(** Modelled from the spec: the [UserOperation] interface is declared in
    the utils package, outside these sources; the fields are those the
    data model lists for an Operation.  BigNumberish fields hold their
    numeric value, absent optional fields are [None]. *)
Record t : Type := mk {
  sender : string;
  nonce : Z;
  factory : option string;
  factoryData : option string;
  callData : string;
  callGasLimit : Z;
  verificationGasLimit : Z;
  preVerificationGas : Z;
  maxFeePerGas : Z;
  maxPriorityFeePerGas : Z;
  paymaster : option string;
  paymasterVerificationGasLimit : option Z;
  paymasterPostOpGasLimit : option Z;
  paymasterData : option string;
  signature : string
}.

(** [userOp.preVerificationGas = v] *)
Definition set_preVerificationGas (v : Z) (u : t) : t :=
  mk (sender u) (nonce u) (factory u) (factoryData u) (callData u)
     (callGasLimit u) (verificationGasLimit u) v (maxFeePerGas u)
     (maxPriorityFeePerGas u) (paymaster u) (paymasterVerificationGasLimit u)
     (paymasterPostOpGasLimit u) (paymasterData u) (signature u).
End UserOperation.

Module EstimateUserOpGasResult.
(** [interface EstimateUserOpGasResult] *)
Record t : Type := mk {
  preVerificationGas : Z;
  verificationGasLimit : Z;
  validAfter : Z;
  validUntil : Z;
  callGasLimit : Z;
  paymasterPostOpGasLimit : Z;
  paymasterVerificationGasLimit : Z
}.
End EstimateUserOpGasResult.

(** The fields of the decoded [simulateHandleOp] result the estimate reads. *)
Record ExecutionResult : Type := mkExecutionResult {
  preOpGas : Z;
  accountValidationData : Z;
  paymasterValidationData : Z
}.

(** State overrides are handed through to the backend unread. *)
Definition StateOverride : Type := list (string * string).

(** The fields of [BundlerConfig] read here; [minBalance] is the number
    [BigNumber] reads off the configured value. *)
Record BundlerConfig : Type := mkBundlerConfig {
  beneficiary : string;
  minBalance : Z;
  entryPoint : string
}.

(** Functions imported from the utils and sdk packages (outside these
    sources), taken as parameters.  [calcPreVerificationGas] stands for
    [calcPreVerificationGas(deepHexlify(userOp))]: the number it returns, or
    the error it throws (it packs and encodes the operation it is given). *)
Record Imports : Type := mkImports {
  decodeRevertReason : string -> option string;
  decodeSimulateHandleOpResult : string -> JsError + ExecutionResult;
  mergeValidationDataValues : Z -> Z -> Z * Z;
  calcPreVerificationGas : UserOperation.t -> JsError + Z
}.

(** The members of [class MethodHandlerERC4337] used below.
    [provider_traceCall] is
    [provider.send("debug_traceCall", rpcParams).catch(...)]: the trace, or
    the error the call rejects with.  [_validateParameters] is the outcome
    of [this._validateParameters(deepHexlify(userOp), entryPointInput)], a
    check of the shape of the request made through the imported
    [requireCond] and [requireAddressAndFields]: [None] when it returns,
    [Some e] when it throws [e]. *)
Record MethodHandlerERC4337 : Type := mkMethodHandlerERC4337 {
  _validateParameters : UserOperation.t -> string -> option JsError;
  provider_getBalance : string -> JsError + Z;
  provider_traceCall : UserOperation.t -> option StateOverride -> JsError + TraceItem;
  signer_getAddress : string;
  config : BundlerConfig;
  entryPoint_address : string
}.

(** *** A state and error monad over the operation object

    [estimateUserOperationGas] receives the caller's [userOp] object and
    assigns to one of its fields; a computation therefore takes the object
    and returns it together with a value or the error thrown. *)
Definition M (A : Type) : Type :=
  UserOperation.t -> UserOperation.t * (JsError + A).

Definition ret {A : Type} (a : A) : M A := fun u => (u, inr a).

Definition throw {A : Type} (e : JsError) : M A := fun u => (u, inl e).

Definition bind {A B : Type} (c : M A) (k : A -> M B) : M B :=
  fun u =>
    match c u with
    | (u', inr a) => k a u'
    | (u', inl e) => (u', inl e)
    end.

Definition lift {A : Type} (r : JsError + A) : M A := fun u => (u, r).

Definition getOp : M UserOperation.t := fun u => (u, inr u).

Definition assign (f : UserOperation.t -> UserOperation.t) : M unit :=
  fun u => (f u, inr tt).

(** [await p] for a call that returns nothing or throws. *)
Definition check (r : option JsError) : M unit :=
  match r with
  | Some e => throw e
  | None => ret tt
  end.

(** [x!.toLowerCase()] on an optional string: the non-null assertion is
    erased at run time, so the method call on [undefined] throws. *)
Definition toLowerCase_of (x : option string) : JsError + string :=
  match x with
  | Some s => inr (toLowerCase s)
  | None => inl (TypeError "Cannot read properties of undefined (reading 'toLowerCase')")
  end.

(** [a ?? b] *)
Definition nullish {A : Type} (a : option A) (b : A) : A :=
  match a with
  | Some v => v
  | None => b
  end.

Declare Scope estimate_scope.
Delimit Scope estimate_scope with estimate.
Notation "x <- c ;; k" := (bind c (fun x => k))
  (at level 61, c at next level, right associativity) : estimate_scope.
Notation "c ;;; k" := (bind c (fun _ => k))
  (at level 61, right associativity) : estimate_scope.

Definition estimateUserOperationGas (imp : Imports) (this : MethodHandlerERC4337)
    (entryPointInput : string) (stateOverride : option StateOverride)
  : M EstimateUserOpGasResult.t :=
  (userOp <- getOp ;;
   check (_validateParameters this userOp entryPointInput) ;;;
   trace <- lift (provider_traceCall this userOp stateOverride) ;;
   if truthy (error trace) then
     let errorTraceItem := findRevertedCall trace in
     let message :=
       match errorTraceItem with
       | Some _ => Some (getSimulationErrorMessage errorTraceItem)
       | None => decodeRevertReason imp (output trace)
       end in
     throw (RpcError (nullish message "Unexpected error during gas estimation")
                     UserOperationReverted errorTraceItem)
   else
     returnInfo <- lift (decodeSimulateHandleOpResult imp (output trace)) ;;
     let '(validAfter, validUntil) :=
       mergeValidationDataValues imp (accountValidationData returnInfo)
                                 (paymasterValidationData returnInfo) in
     let preOpGas := preOpGas returnInfo in
     let ep := toLowerCase (entryPoint_address this) in
     let executeCall :=
       getCallFromTrace trace ep (toLowerCase (UserOperation.sender userOp))
                        EXECUTE_USEROP_SELECTOR in
     pm1 <- lift (toLowerCase_of (UserOperation.paymaster userOp)) ;;
     let validatePaymasterCall :=
       getCallFromTrace trace ep pm1 VALIDATE_PAYMASTER_SELECTOR in
     pm2 <- lift (toLowerCase_of (UserOperation.paymaster userOp)) ;;
     let postOpCall := getCallFromTrace trace ep pm2 POSTOP_SELECTOR in
     let verificationCall :=
       getCallFromTrace trace ep (toLowerCase (UserOperation.sender userOp))
                        VERIFICATION_SELECTOR in
     callGasLimit <- lift (getCallGasLimit executeCall) ;;
     actualPaymasterVerificationGasLimit <- lift (getCallGasLimit validatePaymasterCall) ;;
     paymasterPostOpGasLimit <- lift (getCallGasLimit postOpCall) ;;
     actualAccountVerificationGasLimit <- lift (getCallGasLimit verificationCall) ;;
     let epValidationGas :=
       preOpGas - actualAccountVerificationGasLimit
       - actualPaymasterVerificationGasLimit in
     let accountValidationGasOverhead := Z.quot (epValidationGas * 57) 100 in
     let paymasterValidationGasOverhead := Z.quot (epValidationGas * 43) 100 in
     let verificationGasLimit :=
       actualAccountVerificationGasLimit + accountValidationGasOverhead + 3000 in
     let paymasterVerificationGasLimit :=
       actualPaymasterVerificationGasLimit + paymasterValidationGasOverhead + 3000 in
     assign (UserOperation.set_preVerificationGas 50000) ;;;
     userOp' <- getOp ;;
     preVerificationGas <- lift (calcPreVerificationGas imp userOp') ;;
     ret (EstimateUserOpGasResult.mk preVerificationGas verificationGasLimit
            validAfter validUntil callGasLimit paymasterPostOpGasLimit
            paymasterVerificationGasLimit))%estimate.

(** [selectBeneficiary]: [lte] is [<=] on the balances. *)
Definition selectBeneficiary (this : MethodHandlerERC4337) : JsError + string :=
  match provider_getBalance this (signer_getAddress this) with
  | inl e => inl e
  | inr currentBalance =>
      let beneficiary := beneficiary (config this) in
      if currentBalance <=? minBalance (config this)
      then inr (signer_getAddress this)
      else inr beneficiary
  end.

(** ** The RPC server *)

Module BundlerServer.

(** Values of type [any]: request bodies, parameters, results.  JSON
    numbers are held as integers; an object is the list of its own
    properties, each key once. *)
Unset Elimination Schemes.
Inductive Json : Type :=
| JUndefined
| JNull
| JBool (b : bool)
| JNum (n : Z)
| JStr (s : string)
| JArr (items : list Json)
| JObj (fields : list (string * Json)).
Set Elimination Schemes.

(** The [message], [data] and [code] properties read off a caught value. *)
Record ErrorObject : Type := mkErrorObject {
  message : Json;
  data : Json;
  code : Json
}.

(** A thrown value ([err: any]): [null] or [undefined], or a value with
    its three properties and, when [err.error instanceof Error], those of
    [err.error]. *)
Inductive Thrown : Type :=
| ThrownNullish
| ThrownValue (own : ErrorObject) (error : option ErrorObject).

Definition Outcome (A : Type) : Type := (Thrown + A)%type.

Definition typeError (msg : string) : Thrown :=
  ThrownValue (mkErrorObject (JStr msg) JUndefined JUndefined) None.

(** [new RpcError(msg, code)] *)
Definition rpcError (msg : string) (c : Z) : Thrown :=
  ThrownValue (mkErrorObject (JStr msg) JUndefined (JNum c)) None.

Definition isNullish (v : Json) : bool :=
  match v with
  | JUndefined | JNull => true
  | _ => false
  end.

Fixpoint lookup (k : string) (fields : list (string * Json)) : Json :=
  match fields with
  | [] => JUndefined
  | (k', v) :: rest => if (k =? k')%string then v else lookup k rest
  end.

(** [v.k] for one of the property names read here (none of them is a
    built-in property of strings, numbers or arrays). *)
Definition getProp (v : Json) (k : string) : Outcome Json :=
  match v with
  | JUndefined | JNull =>
      inl (typeError ("Cannot read properties of null or undefined (reading '"
                      ++ k ++ "')"))
  | JObj fields => inr (lookup k fields)
  | _ => inr JUndefined
  end.

(** [v[0]], [v[1]], [v[2]] *)
Definition getIndex (v : Json) (i : nat) : Outcome Json :=
  match v with
  | JUndefined | JNull =>
      inl (typeError "Cannot read properties of null or undefined (reading an index)")
  | JArr items => inr (nth i items JUndefined)
  | JObj fields =>
      inr (lookup (match i with
                   | 0%nat => "0" | 1%nat => "1" | _ => "2"
                   end) fields)
  | JStr s =>
      inr (match get i s with
           | Some c => JStr (String c EmptyString)
           | None => JUndefined
           end)
  | _ => inr JUndefined
  end.

(** The text of a value that converts to text without throwing, a number
    written in decimal digits. *)
Fixpoint toText (v : Json) : string :=
  match v with
  | JUndefined => "undefined"
  | JNull => "null"
  | JBool true => "true"
  | JBool false => "false"
  | JNum n => NilZero.string_of_int (Z.to_int n)
  | JStr s => s
  | JArr items =>
      String.concat "," (map (fun x => if isNullish x then "" else toText x) items)
  | JObj _ => "[object Object]"
  end.

Definition CANNOT_CONVERT : string := "Cannot convert object to primitive value".

(** [texts.join(",")] over conversions that may throw: the first one that
    throws ends it. *)
Fixpoint joinTexts (texts : list (Outcome string)) : Outcome string :=
  match texts with
  | [] => inr ""
  | [text] => text
  | text :: rest =>
      match text with
      | inl e => inl e
      | inr t =>
          match joinTexts rest with
          | inl e => inl e
          | inr r => inr (t ++ "," ++ r)
          end
      end
  end.

(** [`${v}`]: the text of a parsed value inside a template literal, or the
    TypeError the conversion throws.  An object is converted by its
    [toString] method.  A parsed object holds data only, so an own
    [toString] property is not callable, and no [valueOf] yields a
    primitive then: such an object has no text.  Any other object answers
    through [Object.prototype.toString].  An array joins the texts of its
    elements, [null] and [undefined] giving the empty text.  [numberText] is
    the text the engine gives a number. *)
Fixpoint templateText (numberText : Z -> string) (v : Json) : Outcome string :=
  match v with
  | JUndefined => inr "undefined"
  | JNull => inr "null"
  | JBool true => inr "true"
  | JBool false => inr "false"
  | JNum n => inr (numberText n)
  | JStr s => inr s
  | JArr items =>
      joinTexts
        (map (fun x => if isNullish x then inr "" else templateText numberText x)
             items)
  | JObj fields =>
      if existsb (fun p => ("toString" =? fst p)%string) fields
      then inl (typeError CANNOT_CONVERT)
      else inr "[object Object]"
  end.

(** The configuration flag, the imported [deepHexlify], the engine's
    conversion of a number to text, and the handler methods [handleMethod]
    dispatches to, each with the outcome of awaiting it. *)
Record Handlers : Type := mkHandlers {
  useRip7560Mode : bool;
  deepHexlify : Json -> Outcome Json;
  numberText : Z -> string;
  sendRIP7560Transaction : Json -> Outcome Json;
  getRIP7560TransactionReceipt : Json -> Outcome Json;
  provider_getNetwork : Outcome Json;
  getSupportedEntryPoints : Outcome Json;
  sendUserOperation : Json -> Json -> Outcome Json;
  estimateUserOperationGas : Json -> Json -> Json -> Outcome Json;
  getUserOperationReceipt : Json -> Outcome Json;
  getUserOperationByHash : Json -> Outcome Json;
  validateUserOperation : Json -> Json -> Json -> Outcome Json;
  clientVersion : Outcome Json;
  clearState : Outcome unit;
  dumpMempool : Outcome Json;
  clearMempool : Outcome unit;
  setReputation : Json -> Outcome unit;
  dumpReputation : Outcome Json;
  clearReputation : Outcome unit;
  setBundlingMode : Json -> Outcome unit;
  setBundleInterval : Json -> Json -> Outcome unit;
  sendBundleNow : Outcome Json;
  getStakeStatus : Json -> Json -> Outcome Json
}.

Definition obind {A B : Type} (c : Outcome A) (k : A -> Outcome B) : Outcome B :=
  match c with
  | inl e => inl e
  | inr a => k a
  end.

Declare Scope outcome_scope.
Delimit Scope outcome_scope with outcome.
Notation "x <- c ;; k" := (obind c (fun x => k))
  (at level 61, c at next level, right associativity) : outcome_scope.

(** What [throw new RpcError(`Method ${method} is not supported`, -32601)]
    throws: the error, or the TypeError of building its message. *)
Definition notSupported (h : Handlers) (method : Json) : Thrown :=
  match templateText (numberText h) method with
  | inl e => e
  | inr text => rpcError ("Method " ++ text ++ " is not supported") (-32601)
  end.

Definition ok : Json := JStr "ok".

Definition handleMethod (h : Handlers) (method params : Json) : Outcome Json :=
  (match method with
   | JStr m =>
       if (m =? "eth_sendTransaction")%string then
         if negb (useRip7560Mode h) then inl (notSupported h method)
         else
           p0 <- getIndex params 0 ;;
           s <- getProp p0 "sender" ;;
           if negb (isNullish s) then
             p0' <- getIndex params 0 ;; sendRIP7560Transaction h p0'
           else inr JUndefined
       else if (m =? "eth_getTransactionReceipt")%string then
         if negb (useRip7560Mode h) then inl (notSupported h method)
         else p0 <- getIndex params 0 ;; getRIP7560TransactionReceipt h p0
       else if (m =? "eth_chainId")%string then
         net <- provider_getNetwork h ;; getProp net "chainId"
       else if (m =? "eth_supportedEntryPoints")%string then
         getSupportedEntryPoints h
       else if (m =? "eth_sendUserOperation")%string then
         p0 <- getIndex params 0 ;; p1 <- getIndex params 1 ;;
         sendUserOperation h p0 p1
       else if (m =? "eth_estimateUserOperationGas")%string then
         p0 <- getIndex params 0 ;; p1 <- getIndex params 1 ;;
         p2 <- getIndex params 2 ;;
         estimateUserOperationGas h p0 p1 p2
       else if (m =? "eth_getUserOperationReceipt")%string then
         p0 <- getIndex params 0 ;; getUserOperationReceipt h p0
       else if (m =? "eth_getUserOperationByHash")%string then
         p0 <- getIndex params 0 ;; getUserOperationByHash h p0
       else if (m =? "test_validateUserOperation")%string then
         p0 <- getIndex params 0 ;; p1 <- getIndex params 1 ;;
         p2 <- getIndex params 2 ;;
         validateUserOperation h p0 p1 p2
       else if (m =? "web3_clientVersion")%string then
         clientVersion h
       else if (m =? "debug_bundler_clearState")%string then
         _ <- clearState h ;; inr ok
       else if (m =? "debug_bundler_dumpMempool")%string then
         dumpMempool h
       else if (m =? "debug_bundler_clearMempool")%string then
         _ <- clearMempool h ;; inr ok
       else if (m =? "debug_bundler_setReputation")%string then
         p0 <- getIndex params 0 ;; _ <- setReputation h p0 ;; inr ok
       else if (m =? "debug_bundler_dumpReputation")%string then
         dumpReputation h
       else if (m =? "debug_bundler_clearReputation")%string then
         _ <- clearReputation h ;; inr ok
       else if (m =? "debug_bundler_setBundlingMode")%string then
         p0 <- getIndex params 0 ;; _ <- setBundlingMode h p0 ;; inr ok
       else if (m =? "debug_bundler_setBundleInterval")%string then
         p0 <- getIndex params 0 ;; p1 <- getIndex params 1 ;;
         _ <- setBundleInterval h p0 p1 ;; inr ok
       else if (m =? "debug_bundler_sendBundleNow")%string then
         result <- sendBundleNow h ;;
         if isNullish result then inr ok else inr result
       else if (m =? "debug_bundler_getStakeStatus")%string then
         p0 <- getIndex params 0 ;; p1 <- getIndex params 1 ;;
         getStakeStatus h p0 p1
       else inl (notSupported h method)
   | _ => inl (notSupported h method)
   end)%outcome.

(** The object [handleRpc] returns: [{jsonrpc, id, result}] or
    [{jsonrpc, id, error}]. *)
Inductive Payload : Type :=
| Result (result : Json)
| Error (error : ErrorObject).

Record Response : Type := mkResponse {
  jsonrpc : Json;
  id : Json;
  payload : Payload
}.

(** [const { method, params, jsonrpc, id } = reqItem;] *)
Definition destructure (reqItem : Json) : Outcome (Json * Json * Json * Json) :=
  (method <- getProp reqItem "method" ;;
   params <- getProp reqItem "params" ;;
   jsonrpc <- getProp reqItem "jsonrpc" ;;
   id <- getProp reqItem "id" ;;
   inr (method, params, jsonrpc, id))%outcome.

(** The [catch] block: unwrap [err.error] when it is an [Error], then read
    [message], [data] and [code]; reading them off [null] or [undefined]
    throws. *)
Definition caught (err : Thrown) : Outcome ErrorObject :=
  match err with
  | ThrownNullish =>
      inl (typeError "Cannot read properties of undefined (reading 'message')")
  | ThrownValue own (Some inner) => inr inner
  | ThrownValue own None => inr own
  end.

Definition handleRpc (h : Handlers) (reqItem : Json) : Outcome Response :=
  match destructure reqItem with
  | inl e => inl e
  | inr (method, params, jsonrpc, id) =>
      match obind (handleMethod h method params) (deepHexlify h) with
      | inr result => inr (mkResponse jsonrpc id (Result result))
      | inl err =>
          match caught err with
          | inl e => inl e
          | inr error => inr (mkResponse jsonrpc id (Error error))
          end
      end
  end.

(** What [rpc] hands to [res.send]. *)
Inductive Content : Type :=
| Single (r : Response)
| Batch (rs : list Response).

Fixpoint handleAll (h : Handlers) (items : list Json) : Outcome (list Response) :=
  match items with
  | [] => inr []
  | reqItem :: rest =>
      match handleRpc h reqItem with
      | inl e => inl e
      | inr r =>
          match handleAll h rest with
          | inl e => inl e
          | inr rs => inr (r :: rs)
          end
      end
  end.

Definition rpc (h : Handlers) (body : Json) : Outcome Content :=
  match body with
  | JArr items =>
      match handleAll h items with
      | inl e => inl e
      | inr rs => inr (Batch rs)
      end
  | _ =>
      match handleRpc h body with
      | inl e => inl e
      | inr r => inr (Single r)
      end
  end.

End BundlerServer.

(** ** Reference notions of the specification *)

(** The gas limit the formula of the specification gives for a frame:
    [floor(gasUsed * 64^depth / 63^depth) + 2000]. *)
Definition scaledLimit (gasUsed_ : N) (depth : nat) : Z :=
  Z.of_N gasUsed_ * 64 ^ Z.of_nat depth / 63 ^ Z.of_nat depth + 2000.

(** The verification budgets with the two shares rounded down. *)
Definition flooredShare (limit overhead percent : Z) : Z :=
  limit + overhead * percent / 100 + 3000.

(** The verification budgets as the code computes them, the shares rounded
    toward zero. *)
Definition truncatedShare (limit overhead percent : Z) : Z :=
  limit + Z.quot (overhead * percent) 100 + 3000.

(** Every errored leaf of the trace is a static call. *)
Definition onlyStaticErrors (node : TraceItem) : Prop :=
  forall f, In f (preorder node) -> erroredLeaf f = true -> type f = "STATICCALL".

(** The operation object after the call and what the call produced. *)
Definition operationAfter {A : Type} (r : UserOperation.t * (JsError + A))
  : UserOperation.t := fst r.

Definition produced {A : Type} (r : UserOperation.t * (JsError + A))
  : JsError + A := snd r.

(** The four frames the estimate looks for. *)
Definition executeCallOf (this : MethodHandlerERC4337) (u : UserOperation.t)
    (trace : TraceItem) : option TraceItem :=
  getCallFromTrace trace (toLowerCase (entryPoint_address this))
    (toLowerCase (UserOperation.sender u)) EXECUTE_USEROP_SELECTOR.

Definition verificationCallOf (this : MethodHandlerERC4337) (u : UserOperation.t)
    (trace : TraceItem) : option TraceItem :=
  getCallFromTrace trace (toLowerCase (entryPoint_address this))
    (toLowerCase (UserOperation.sender u)) VERIFICATION_SELECTOR.

Definition paymasterCallOf (this : MethodHandlerERC4337) (pm : string)
    (trace : TraceItem) : option TraceItem :=
  getCallFromTrace trace (toLowerCase (entryPoint_address this))
    (toLowerCase pm) VALIDATE_PAYMASTER_SELECTOR.

Definition postOpCallOf (this : MethodHandlerERC4337) (pm : string)
    (trace : TraceItem) : option TraceItem :=
  getCallFromTrace trace (toLowerCase (entryPoint_address this))
    (toLowerCase pm) POSTOP_SELECTOR.

Ltac open_estimate :=
  unfold estimateUserOperationGas, bind, getOp, check, lift, throw, ret, assign,
    toLowerCase_of, operationAfter, produced,
    executeCallOf, verificationCallOf, paymasterCallOf, postOpCallOf in *.

Ltac step_estimate :=
  match goal with
  | |- context [_validateParameters ?i ?u ?e] =>
      destruct (_validateParameters i u e) eqn:?
  | |- context [provider_traceCall ?t ?u ?s] =>
      destruct (provider_traceCall t u s) eqn:?
  | |- context [truthy (error ?t)] => destruct (truthy (error t)) eqn:?
  | |- context [decodeSimulateHandleOpResult ?i ?o] =>
      destruct (decodeSimulateHandleOpResult i o) eqn:?
  | |- context [mergeValidationDataValues ?i ?a ?b] =>
      destruct (mergeValidationDataValues i a b) eqn:?
  | |- context [UserOperation.paymaster ?u] =>
      destruct (UserOperation.paymaster u) eqn:?
  | |- context [getCallGasLimit ?c] => destruct (getCallGasLimit c) eqn:?
  | |- context [calcPreVerificationGas ?i ?u] =>
      destruct (calcPreVerificationGas i u) eqn:?
  end; cbn [fst snd].

(** The frames whose limits the estimate computes, in the order it computes
    them, and the error of the first computation that throws. *)
Definition phaseCalls (this : MethodHandlerERC4337) (u : UserOperation.t)
    (pm : string) (trace : TraceItem) : list (option TraceItem) :=
  [executeCallOf this u trace; paymasterCallOf this pm trace;
   postOpCallOf this pm trace; verificationCallOf this u trace].

Fixpoint firstFailure (phases : list (option TraceItem)) : option JsError :=
  match phases with
  | [] => None
  | call :: rest =>
      match getCallGasLimit call with
      | inl e => Some e
      | inr _ => firstFailure rest
      end
  end.

(** Two operation objects that agree on every field but
    [preVerificationGas]. *)
Definition sameButPreVerificationGas (u u' : UserOperation.t) : Prop :=
  UserOperation.sender u' = UserOperation.sender u
  /\ UserOperation.nonce u' = UserOperation.nonce u
  /\ UserOperation.factory u' = UserOperation.factory u
  /\ UserOperation.factoryData u' = UserOperation.factoryData u
  /\ UserOperation.callData u' = UserOperation.callData u
  /\ UserOperation.callGasLimit u' = UserOperation.callGasLimit u
  /\ UserOperation.verificationGasLimit u' = UserOperation.verificationGasLimit u
  /\ UserOperation.maxFeePerGas u' = UserOperation.maxFeePerGas u
  /\ UserOperation.maxPriorityFeePerGas u' = UserOperation.maxPriorityFeePerGas u
  /\ UserOperation.paymaster u' = UserOperation.paymaster u
  /\ UserOperation.paymasterVerificationGasLimit u'
     = UserOperation.paymasterVerificationGasLimit u
  /\ UserOperation.paymasterPostOpGasLimit u' = UserOperation.paymasterPostOpGasLimit u
  /\ UserOperation.paymasterData u' = UserOperation.paymasterData u
  /\ UserOperation.signature u' = UserOperation.signature u.

(** ** A sample simulation *)

Module Scenario.

Definition frame (from_ to_ input_ : string) (gasUsed_ : N)
    (calls_ : list TraceItem) (error_ : option string) (type_ : string)
  : TraceItem :=
  mkTraceItem from_ 1000000 gasUsed_ to_ input_ "0x" calls_ "0x0" error_ type_.

Definition leaf : TraceItem :=
  frame "0xaa" "0xcc" "0xa9059cbb00" 5000 [] None "CALL".

Definition inner : TraceItem :=
  frame "0xaa" "0xaa" "0xb61d27f600" 12000 [leaf] None "DELEGATECALL".

(** Depth 3, [gasUsed = 21000]. *)
Definition executeFrame : TraceItem :=
  frame "0xee" "0xaa" "0x8dd7712f00" 21000 [inner] None "CALL".

Definition ecrecover : TraceItem :=
  frame "0xaa" "0x01" "0x" 3000 [] None "STATICCALL".

Definition verificationFrame : TraceItem :=
  frame "0xee" "0xaa" "0x19822f7c00" 30000 [ecrecover] None "CALL".

Definition paymasterFrame : TraceItem :=
  frame "0xee" "0xbb" "0x52b7512c00" 20000 [] None "CALL".

Definition postOpFrame : TraceItem :=
  frame "0xee" "0xbb" "0x7c627b2100" 10000 [] None "CALL".

Definition trace : TraceItem :=
  mkTraceItem "0x00" 5000000 120000 "0xee" "0x97b2dcb900" "0xok"
    [verificationFrame; paymasterFrame; executeFrame; postOpFrame]
    "0x0" None "CALL".

(** An execution frame without error above a call that reverted and that
    itself made calls two levels deep: depth 4, [gasUsed = 21000]. *)
Definition revertedInner : TraceItem :=
  frame "0xaa" "0xaa" "0xb61d27f600" 12000 [inner]
        (Some "execution reverted") "CALL".

Definition deepExecuteFrame : TraceItem :=
  frame "0xee" "0xaa" "0x8dd7712f00" 21000 [revertedInner] None "CALL".

Definition deepTrace : TraceItem :=
  mkTraceItem "0x00" 5000000 120000 "0xee" "0x97b2dcb900" "0xok"
    [verificationFrame; paymasterFrame; deepExecuteFrame; postOpFrame]
    "0x0" None "CALL".

(** A failed simulation: the first errored leaf is a static call, the
    second an ordinary call. *)
Definition staticLeaf : TraceItem :=
  frame "0xaa" "0xdd" "0x70a0823100" 700 [] (Some "execution reverted") "STATICCALL".

Definition callLeaf : TraceItem :=
  frame "0xaa" "0xcc" "0xa9059cbb00" 900 [] (Some "execution reverted") "CALL".

Definition revertedTrace : TraceItem :=
  mkTraceItem "0x00" 5000000 90000 "0xee" "0x97b2dcb900" "0x08c379a0"
    [frame "0xee" "0xaa" "0x19822f7c00" 30000 [staticLeaf; callLeaf]
           (Some "execution reverted") "CALL"]
    "0x0" (Some "execution reverted") "CALL".

(** A failed simulation whose only errored leaf is a static call. *)
Definition staticOnlyTrace : TraceItem :=
  mkTraceItem "0x00" 5000000 90000 "0xee" "0x97b2dcb900" "0x08c379a0"
    [frame "0xee" "0xaa" "0x19822f7c00" 30000 [staticLeaf]
           (Some "execution reverted") "CALL"]
    "0x0" (Some "execution reverted") "CALL".

(** A simulation in which the paymaster is never called. *)
Definition unsponsoredTrace : TraceItem :=
  mkTraceItem "0x00" 5000000 120000 "0xee" "0x97b2dcb900" "0xok"
    [verificationFrame; executeFrame] "0x0" None "CALL".

(** A simulation whose execution frame reverts while the root succeeds. *)
Definition failedExecuteFrame : TraceItem :=
  frame "0xee" "0xaa" "0x8dd7712f00" 21000 [] (Some "execution reverted") "CALL".

Definition failedExecuteTrace : TraceItem :=
  mkTraceItem "0x00" 5000000 120000 "0xee" "0x97b2dcb900" "0xok"
    [verificationFrame; paymasterFrame; failedExecuteFrame; postOpFrame]
    "0x0" None "CALL".

Definition userOp : UserOperation.t :=
  UserOperation.mk "0xAA" 7 None None "0x8dd7712f00" 0 0 0 1000000000 1000000000
    (Some "0xBB") (Some 0) (Some 0) (Some "0x") "0x00".

(** The same operation without a paymaster. *)
Definition bareOp : UserOperation.t :=
  UserOperation.mk "0xAA" 7 None None "0x8dd7712f00" 0 0 0 1000000000 1000000000
    None None None None "0x00".

(** Helpers that decode [preOpGas_] from any output. *)
Definition imports (preOpGas_ : Z) : Imports :=
  mkImports
    (fun out => if (out =? "0x08c379a0")%string then Some "Error(AA23 reverted)" else None)
    (fun _ => inr (mkExecutionResult preOpGas_ 0 0))
    (fun _ _ => (0, 281474976710655))
    (fun u => inr (40000 + UserOperation.preVerificationGas u / 100)).

(** The same helpers, with a [calcPreVerificationGas] that throws. *)
Definition failingImports (preOpGas_ : Z) : Imports :=
  mkImports
    (decodeRevertReason (imports preOpGas_))
    (decodeSimulateHandleOpResult (imports preOpGas_))
    (mergeValidationDataValues (imports preOpGas_))
    (fun _ => inl (ExternalError "invalid arrayify value")).

(** A handler that accepts every request and whose backend answers every
    simulation with [t]; the signer balance equals the configured minimum. *)
Definition handler (t : TraceItem) : MethodHandlerERC4337 :=
  mkMethodHandlerERC4337
    (fun _ _ => None)
    (fun _ => inr 1000)
    (fun _ _ => inr t)
    "0x5167"
    (mkBundlerConfig "0xBE4E" 1000 "0xEE")
    "0xEE".

Definition run (preOpGas_ : Z) (t : TraceItem) (u : UserOperation.t)
  : UserOperation.t * (JsError + EstimateUserOpGasResult.t) :=
  estimateUserOperationGas (imports preOpGas_) (handler t) "0xEE" None u.

(** A server whose handlers all answer [ok]. *)
Definition handlers : BundlerServer.Handlers :=
  let ok := @inr BundlerServer.Thrown _ BundlerServer.ok in
  let done := @inr BundlerServer.Thrown _ tt in
  BundlerServer.mkHandlers false (fun v => inr v)
    (fun n => NilZero.string_of_int (Z.to_int n))
    (fun _ => ok) (fun _ => ok) ok ok (fun _ _ => ok) (fun _ _ _ => ok)
    (fun _ => ok) (fun _ => ok) (fun _ _ _ => ok) ok done ok done
    (fun _ => done) ok done (fun _ => done) (fun _ _ => done) ok
    (fun _ _ => ok).

Definition request : BundlerServer.Json :=
  BundlerServer.JObj
    [("jsonrpc", BundlerServer.JStr "2.0"); ("id", BundlerServer.JNum 1);
     ("method", BundlerServer.JStr "eth_supportedEntryPoints");
     ("params", BundlerServer.JArr [])].

End Scenario.

(** ** Receipt logs *)

Module Logs.

(** The fields of an ethers [Log] read by [_filterLogs]; an event is a log. *)
Record Log : Type := mkLog {
  address : string;
  topics : list string;
  data : string
}.

(** [log.topics[i]], [undefined] past the end. *)
Definition topic (i : nat) (log : Log) : option string := nth_error (topics log) i.

(** [a === b] on two values that are strings or [undefined]. *)
Definition sameTopic (a b : option string) : bool :=
  match a, b with
  | Some x, Some y => (x =? y)%string
  | None, None => true
  | _, _ => false
  end.

(** [log?.topics[0] === beforeExecutionTopic] *)
Definition isBeforeExecution (beforeExecutionTopic : string) (log : Log) : bool :=
  sameTopic (topic 0 log) (Some beforeExecutionTopic).

(** [log?.topics[0] === userOpEvent.topics[0]] *)
Definition isUserOperationEvent (userOpEvent log : Log) : bool :=
  sameTopic (topic 0 log) (topic 0 userOpEvent).

(** [log.topics[1] === userOpEvent.topics[1]] *)
Definition hasOurHash (userOpEvent log : Log) : bool :=
  sameTopic (topic 1 log) (topic 1 userOpEvent).

(** The body of the [forEach] callback on the pair [(startIndex, endIndex)]. *)
Definition visit (beforeExecutionTopic : string) (userOpEvent : Log)
    (st : Z * Z) (log : Log) (index : Z) : Z * Z :=
  let '(startIndex, endIndex) := st in
  if isBeforeExecution beforeExecutionTopic log then (index, index)
  else if isUserOperationEvent userOpEvent log then
    if hasOurHash userOpEvent log then (startIndex, index)
    else if endIndex =? -1 then (index, endIndex)
    else (startIndex, endIndex)
  else (startIndex, endIndex).

(** [logs.forEach((log, index) => ...)] from position [index] on. *)
Fixpoint forEach {S A : Type} (f : S -> A -> Z -> S) (l : list A) (index : Z)
    (st : S) : S :=
  match l with
  | [] => st
  | x :: rest => forEach f rest (index + 1) (f st x index)
  end.

(** [Array.prototype.slice(start, end)]: negative positions count from the
    end, positions are clamped to the array. *)
Definition slice {A : Type} (l : list A) (start end_ : Z) : list A :=
  let len := Z.of_nat (length l) in
  let k := if start <? 0 then Z.max (len + start) 0 else Z.min start len in
  let final := if end_ <? 0 then Z.max (len + end_) 0 else Z.min end_ len in
  firstn (Z.to_nat (final - k)) (skipn (Z.to_nat k) l).

(** [_filterLogs(userOpEvent, logs)]; [beforeExecutionTopic] is the topic the
    entry point interface gives for the event BeforeExecution.  [inl msg] is
    [throw new Error(msg)]. *)
Definition _filterLogs (beforeExecutionTopic : string) (userOpEvent : Log)
    (logs : list Log) : string + list Log :=
  let '(startIndex, endIndex) :=
    forEach (visit beforeExecutionTopic userOpEvent) logs 0 (-1, -1) in
  if endIndex =? -1 then inl "fatal: no UserOperationEvent in logs"
  else inr (slice logs (startIndex + 1) endIndex).

(** A log that moves [endIndex]: a BeforeExecution log, or a
    UserOperationEvent with the hash of [userOpEvent]. *)
Definition delimits (beforeExecutionTopic : string) (userOpEvent log : Log) : bool :=
  isBeforeExecution beforeExecutionTopic log
  || (isUserOperationEvent userOpEvent log && hasOurHash userOpEvent log).

(** Sample receipt: two operations in one bundle. *)
Definition BEFORE : string := "0xbb47ee3e".
Definition EVENT : string := "0x49628fd1".
Definition transfer (n : string) : Log := mkLog "0xcc" ["0xddf252ad"; n] "0x".
Definition beforeExecution : Log := mkLog "0xee" [BEFORE] "0x".
Definition opEvent (hash : string) : Log := mkLog "0xee" [EVENT; hash] "0x".
Definition deposited : Log := mkLog "0xee" ["0x2da466a7"] "0x".

End Logs.

(** ** The dispatch table and the disabled debug handler *)

(** The methods [handleMethod] serves only in RIP-7560 mode, and the ones it
    serves in every mode. *)
Definition rip7560Methods : list string :=
  ["eth_sendTransaction"; "eth_getTransactionReceipt"].

Definition servedMethods : list string :=
  ["eth_chainId"; "eth_supportedEntryPoints"; "eth_sendUserOperation";
   "eth_estimateUserOperationGas"; "eth_getUserOperationReceipt";
   "eth_getUserOperationByHash"; "test_validateUserOperation";
   "web3_clientVersion"; "debug_bundler_clearState";
   "debug_bundler_dumpMempool"; "debug_bundler_clearMempool";
   "debug_bundler_setReputation"; "debug_bundler_dumpReputation";
   "debug_bundler_clearReputation"; "debug_bundler_setBundlingMode";
   "debug_bundler_setBundleInterval"; "debug_bundler_sendBundleNow";
   "debug_bundler_getStakeStatus"].

Definition dispatches (useRip7560Mode_ : bool) (method : BundlerServer.Json) : bool :=
  match method with
  | BundlerServer.JStr m =>
      existsb (String.eqb m) servedMethods
      || (useRip7560Mode_ && existsb (String.eqb m) rip7560Methods)
  | _ => false
  end.

(** The methods of [DebugMethodHandler] that [handleMethod] calls. *)
Definition debugMethods : list string :=
  ["clearState"; "dumpMempool"; "clearMempool"; "setReputation";
   "dumpReputation"; "clearReputation"; "setBundlingMode";
   "setBundleInterval"; "sendBundleNow"; "getStakeStatus"].

(** What the [get] trap of the proxy in [runBundler] throws for a method. *)
Definition debugDisabled (method : string) : BundlerServer.Thrown :=
  BundlerServer.rpcError
    ("method debug_bundler_" ++ method ++ " is not supported") (-32601).

(** The handlers of a server started without the debug RPC: [runBundler]
    passes a proxy whose [get] trap throws for every method read off it, so
    each call of a debug method throws.  The trap fires when the method is
    read, before the arguments are evaluated; the two agree whenever reading
    the arguments does not throw, that is for parameters other than null and
    undefined. *)
Definition withoutDebugRpc (h : BundlerServer.Handlers) : BundlerServer.Handlers :=
  BundlerServer.mkHandlers
    (BundlerServer.useRip7560Mode h) (BundlerServer.deepHexlify h)
    (BundlerServer.numberText h)
    (BundlerServer.sendRIP7560Transaction h)
    (BundlerServer.getRIP7560TransactionReceipt h)
    (BundlerServer.provider_getNetwork h)
    (BundlerServer.getSupportedEntryPoints h)
    (BundlerServer.sendUserOperation h)
    (BundlerServer.estimateUserOperationGas h)
    (BundlerServer.getUserOperationReceipt h)
    (BundlerServer.getUserOperationByHash h)
    (BundlerServer.validateUserOperation h)
    (BundlerServer.clientVersion h)
    (inl (debugDisabled "clearState"))
    (inl (debugDisabled "dumpMempool"))
    (inl (debugDisabled "clearMempool"))
    (fun _ => inl (debugDisabled "setReputation"))
    (inl (debugDisabled "dumpReputation"))
    (inl (debugDisabled "clearReputation"))
    (fun _ => inl (debugDisabled "setBundlingMode"))
    (fun _ _ => inl (debugDisabled "setBundleInterval"))
    (inl (debugDisabled "sendBundleNow"))
    (fun _ _ => inl (debugDisabled "getStakeStatus")).

(** The request [{jsonrpc: "2.0", id, method, params}]. *)
Definition requestOf (id_ : Z) (method : string) (params : BundlerServer.Json)
  : BundlerServer.Json :=
  BundlerServer.JObj
    [("jsonrpc", BundlerServer.JStr "2.0"); ("id", BundlerServer.JNum id_);
     ("method", BundlerServer.JStr method); ("params", params)].

(** A request whose method is the object [{toString: 1}], and one whose
    method is an array. *)
Definition objectMethodRequest : BundlerServer.Json :=
  BundlerServer.JObj
    [("jsonrpc", BundlerServer.JStr "2.0"); ("id", BundlerServer.JNum 3);
     ("method", BundlerServer.JObj [("toString", BundlerServer.JNum 1)]);
     ("params", BundlerServer.JArr [])].

Definition arrayMethodRequest : BundlerServer.Json :=
  BundlerServer.JObj
    [("jsonrpc", BundlerServer.JStr "2.0"); ("id", BundlerServer.JNum 4);
     ("method", BundlerServer.JArr [BundlerServer.JStr "eth_chainId";
                                    BundlerServer.JNull;
                                    BundlerServer.JObj []]);
     ("params", BundlerServer.JArr [])].

(** ** Objects *)

Module Objects.

(** An object as the list of its own properties. *)
Definition Object : Type := list (string * BundlerServer.Json).

(** [o[k] = v]: the value of an existing property is replaced, a new
    property comes last. *)
Fixpoint setProp (k : string) (v : BundlerServer.Json) (o : Object) : Object :=
  match o with
  | [] => [(k, v)]
  | (k', v') :: rest =>
      if (k =? k')%string then (k, v) :: rest else (k', v') :: setProp k v rest
  end.

(** [Object.keys(o).includes(k)] *)
Definition hasOwn (k : string) (o : Object) : bool :=
  existsb (fun p => (k =? fst p)%string) o.

(** The property name of an array index. *)
Definition indexKey (i : nat) : string := NilZero.string_of_uint (Nat.to_uint i).

Fixpoint indexed {A : Type} (f : A -> BundlerServer.Json) (l : list A) (i : nat)
  : Object :=
  match l with
  | [] => []
  | x :: rest => (indexKey i, f x) :: indexed f rest (S i)
  end.

(** The own enumerable properties of a value: the fields of an object, the
    elements of an array and the characters of a string under their indices,
    none for the other values. *)
Definition ownProps (v : BundlerServer.Json) : Object :=
  match v with
  | BundlerServer.JObj fields => fields
  | BundlerServer.JArr items => indexed (fun x => x) items 0
  | BundlerServer.JStr s =>
      indexed (fun c => BundlerServer.JStr (String c EmptyString))
              (list_ascii_of_string s) 0
  | _ => []
  end.

(** The spread [{...target, ...source}]: every own property of the source
    is defined on the copy of the target. *)
Definition assign (target : Object) (source : BundlerServer.Json) : Object :=
  fold_left (fun t p => setProp (fst p) (snd p) t) (ownProps source) target.

(** No property name occurs twice among the own properties of a value. *)
Definition uniqueKeys (v : BundlerServer.Json) : Prop :=
  NoDup (map fst (ownProps v)).

End Objects.

(** ** Configuration *)

Module Config.

(** [getCommandLineParams(programOpts)]; [BundlerConfigShape] is the list of
    the keys of the shape object, in the order [for ... in] visits them. *)
Definition getCommandLineParams (BundlerConfigShape : list string)
    (programOpts : Objects.Object) : Objects.Object :=
  fold_left
    (fun params bundlerConfigShapeKey =>
       let optionValue := BundlerServer.lookup bundlerConfigShapeKey programOpts in
       if negb (BundlerServer.isNullish optionValue)
       then Objects.setProp bundlerConfigShapeKey optionValue params
       else params)
    BundlerConfigShape [].

(** The object [Object.assign({}, ...sources)] builds: its own properties
    and its prototype, [None] while that is [Object.prototype]. *)
Record Merged : Type := mkMerged {
  prototype : option BundlerServer.Json;
  own : Objects.Object
}.

(** Whether the name [__proto__] still reaches the accessor of
    [Object.prototype] on the object: no own property and no property of its
    prototype hides it, and the prototype is not [null]. *)
Definition reachesProtoAccessor (target : Merged) : bool :=
  negb (Objects.hasOwn "__proto__" (own target))
  && match prototype target with
     | None => true
     | Some BundlerServer.JNull => false
     | Some p => negb (Objects.hasOwn "__proto__" (Objects.ownProps p))
     end.

(** [target[k] = v], the assignment [Object.assign] makes for each own
    property of a source.  A name other than [__proto__] becomes an own
    property of the target.  The name [__proto__] runs the accessor when it
    reaches it: an object or [null] becomes the prototype of the target and
    any other value is dropped; where the accessor is hidden the name is an
    own property like the others. *)
Definition setOn (k : string) (v : BundlerServer.Json) (target : Merged) : Merged :=
  if (k =? "__proto__")%string && reachesProtoAccessor target then
    match v with
    | BundlerServer.JObj _ | BundlerServer.JArr _ | BundlerServer.JNull =>
        mkMerged (Some v) (own target)
    | _ => target
    end
  else mkMerged (prototype target) (Objects.setProp k v (own target)).

(** [Object.assign(target, source)] *)
Definition Object_assign (target : Merged) (source : BundlerServer.Json) : Merged :=
  fold_left (fun t p => setOn (fst p) (snd p) t) (Objects.ownProps source) target.

(** [mergeConfigs(...sources)]; [exactShape] is the check
    [ow(mergedConfig, ow.object.exactShape(BundlerConfigShape))]: [Some msg]
    when it throws. *)
Definition mergeConfigs (exactShape : Merged -> option string)
    (sources : list BundlerServer.Json) : string + Merged :=
  let mergedConfig := fold_left Object_assign sources (mkMerged None []) in
  match exactShape mergedConfig with
  | Some msg => inl msg
  | None => inr mergedConfig
  end.

(** The [config] that [resolveConfiguration(programOpts)] computes before it
    connects the provider and the wallet; [inl msg] when it throws on the
    way.  [configFile] is [None] when the file does not exist, and otherwise
    what [JSON.parse] makes of its content: the value, or the message of the
    error thrown. *)
Definition resolveConfiguration (BundlerConfigShape : list string)
    (exactShape : Merged -> option string)
    (bundlerConfigDefault : BundlerServer.Json)
    (configFile : option (string + BundlerServer.Json))
    (programOpts : Objects.Object) : string + Merged :=
  let commandLineParams := getCommandLineParams BundlerConfigShape programOpts in
  match
    match configFile with
    | Some (inl msg) => inl msg
    | Some (inr parsed) => inr parsed
    | None => inr (BundlerServer.JObj [])
    end
  with
  | inl msg => inl msg
  | inr fileConfig =>
      mergeConfigs exactShape
        [bundlerConfigDefault; fileConfig; BundlerServer.JObj commandLineParams]
  end.

(** Sample configuration sources. *)
Definition sampleShape : list string := ["port"; "network"; "unsafe"].

Definition sampleDefault : BundlerServer.Json :=
  BundlerServer.JObj [("port", BundlerServer.JStr "3000");
                      ("unsafe", BundlerServer.JBool false)].


Definition sampleOpts : Objects.Object :=
  [("unsafe", BundlerServer.JBool true); ("config", BundlerServer.JStr "x.json");
   ("port", BundlerServer.JUndefined)].

(** A configuration file with a [__proto__] key. *)
Definition protoFile : BundlerServer.Json :=
  BundlerServer.JObj
    [("__proto__", BundlerServer.JObj [("network", BundlerServer.JStr "hardhat")]);
     ("port", BundlerServer.JStr "4337")].

End Config.

(** ** Parameters of the simulation call *)

Module RpcSimulate.

(** The value of [extraOptions] after the default [{}] of the parameter. *)
Definition optionsOf (extraOptions : BundlerServer.Json) : BundlerServer.Json :=
  match extraOptions with
  | BundlerServer.JUndefined => BundlerServer.JObj []
  | v => v
  end.

(** [simulationRpcParams(methodName, entryPointAddress, userOp, extraParams,
    extraOptions)].  [encodeFunctionData] stands for
    [entryPointSimulationsInterface.encodeFunctionData(methodName,
    [packUserOp(userOp), ...extraParams])] and [deployedBytecode] for
    [EntryPointSimulationsJson.deployedBytecode]. *)
Definition simulationRpcParams
    (encodeFunctionData :
       string -> BundlerServer.Json -> list BundlerServer.Json
       -> BundlerServer.Outcome string)
    (deployedBytecode : string)
    (methodName entryPointAddress : string) (userOp : BundlerServer.Json)
    (extraParams : list BundlerServer.Json) (extraOptions : BundlerServer.Json)
  : BundlerServer.Outcome BundlerServer.Json :=
  let extraOptions := optionsOf extraOptions in
  match encodeFunctionData methodName userOp extraParams with
  | inl e => inl e
  | inr data =>
      let tx := BundlerServer.JObj [("to", BundlerServer.JStr entryPointAddress);
                                    ("data", BundlerServer.JStr data)] in
      match extraOptions with
      | BundlerServer.JNull =>
          inl (BundlerServer.typeError "Cannot convert undefined or null to object")
      | _ =>
          let stateOverride :=
            if Objects.hasOwn entryPointAddress (Objects.ownProps extraOptions)
            then
              BundlerServer.JObj
                [(entryPointAddress,
                  BundlerServer.JObj
                    (Objects.setProp "code" (BundlerServer.JStr deployedBytecode)
                       (Objects.assign []
                          (BundlerServer.lookup entryPointAddress
                             (Objects.ownProps extraOptions)))))]
            else
              BundlerServer.JObj
                [(entryPointAddress,
                  BundlerServer.JObj
                    [("code", BundlerServer.JStr deployedBytecode)])] in
          inr (BundlerServer.JArr
                 [tx; BundlerServer.JStr "latest";
                  BundlerServer.JObj
                    [("tracer", BundlerServer.JStr "callTracer");
                     ("enableReturnData", BundlerServer.JBool true);
                     ("stateOverrides",
                      BundlerServer.JObj
                        (Objects.assign (Objects.assign [] extraOptions)
                                        stateOverride))]])
      end
  end.

(** Sample overrides: a balance and a code for the entry point, a balance
    for another account. *)
Definition sampleOverrides : BundlerServer.Json :=
  BundlerServer.JObj
    [("0xEE", BundlerServer.JObj [("balance", BundlerServer.JStr "0x10");
                                  ("code", BundlerServer.JStr "0xdead")]);
     ("0xAA", BundlerServer.JObj [("balance", BundlerServer.JStr "0x20")])].

Definition sampleEncode (methodName : string) (userOp : BundlerServer.Json)
    (extraParams : list BundlerServer.Json) : BundlerServer.Outcome string :=
  inr "0x97b2dcb9".

End RpcSimulate.

(** ** Validation of the request parameters *)

Module Validation.

(** One character of the class [[a-fA-F\d]]. *)
Definition isHexDigit (c : ascii) : bool :=
  let n := nat_of_ascii c in
  ((48 <=? n) && (n <=? 57) || (97 <=? n) && (n <=? 102)
   || (65 <=? n) && (n <=? 70))%nat.

Fixpoint allHexDigits (s : string) : bool :=
  match s with
  | EmptyString => true
  | String c rest => isHexDigit c && allHexDigits rest
  end.

(** [value.match(HEX_REGEX) != null] for [/^0x[a-fA-F\d]*$/i]: the flag [i]
    lets the prefix be [0X] as well. *)
Definition HEX_REGEX (value : string) : bool :=
  match value with
  | String c0 (String c1 rest) =>
      (c0 =? "0")%char && ((c1 =? "x")%char || (c1 =? "X")%char)
      && allHexDigits rest
  | _ => false
  end.

(** The helpers imported from the utils package, taken as parameters:
    [requireCond(cond, msg, code)] and [requireAddressAndFields(userOp,
    addrField, mustFields, optionalFields)], each with what it throws if it
    throws, and the code [ValidationErrors.InvalidFields]. *)
Record Helpers : Type := mkHelpers {
  requireCond : bool -> string -> Z -> option BundlerServer.Thrown;
  requireAddressAndFields :
    BundlerServer.Json -> string -> list string -> option (list string)
    -> option BundlerServer.Thrown;
  InvalidFields : Z
}.

(** [new Error(msg)] *)
Definition newError (msg : string) : BundlerServer.Thrown :=
  BundlerServer.ThrownValue
    (BundlerServer.mkErrorObject (BundlerServer.JStr msg) BundlerServer.JUndefined
                                 BundlerServer.JUndefined) None.

(** The array [fields] after the two conditional pushes. *)
Definition fieldsOf (requireSignature requireGasParams : bool) : list string :=
  (["sender"; "nonce"; "callData"]
   ++ (if requireSignature then ["signature"] else [])
   ++ (if requireGasParams
       then ["preVerificationGas"; "verificationGasLimit"; "callGasLimit";
             "maxFeePerGas"; "maxPriorityFeePerGas"]
       else []))%list.

(** The callback of [fields.forEach]. *)
Definition checkField (hp : Helpers) (userOp : BundlerServer.Json) (key : string)
  : option BundlerServer.Thrown :=
  match BundlerServer.getProp userOp key with
  | inl e => Some e
  | inr v =>
      match requireCond hp (negb (BundlerServer.isNullish v))
                        ("Missing userOp field: " ++ key) (-32602) with
      | Some e => Some e
      | None =>
          if BundlerServer.isNullish v
          then Some (BundlerServer.typeError
                       "Cannot read properties of undefined (reading 'toString')")
          else
            let value := BundlerServer.toText v in
            requireCond hp (HEX_REGEX value)
              ("Invalid hex value for property " ++ key ++ ":" ++ value
               ++ " in UserOp") (-32602)
      end
  end.

(** [keys.forEach(f)] for a callback that may throw. *)
Fixpoint forEachKey (f : string -> option BundlerServer.Thrown) (keys : list string)
  : option BundlerServer.Thrown :=
  match keys with
  | [] => None
  | key :: rest =>
      match f key with
      | Some e => Some e
      | None => forEachKey f rest
      end
  end.

(** [entryPointInput?.toString().toLowerCase() !== entryPoint.toLowerCase()] *)
Definition otherEntryPoint (entryPointInput : BundlerServer.Json)
    (config_entryPoint : string) : bool :=
  if BundlerServer.isNullish entryPointInput then true
  else negb (toLowerCase (BundlerServer.toText entryPointInput)
             =? toLowerCase config_entryPoint)%string.

(** [_validateParameters(userOp1, entryPointInput, requireSignature,
    requireGasParams)]: [None] when it returns, [Some e] when it throws. *)
Definition _validateParameters (hp : Helpers) (config_entryPoint : string)
    (userOp1 entryPointInput : BundlerServer.Json)
    (requireSignature requireGasParams : bool) : option BundlerServer.Thrown :=
  match requireCond hp (negb (BundlerServer.isNullish entryPointInput))
                    "No entryPoint param" (-32602) with
  | Some e => Some e
  | None =>
      if otherEntryPoint entryPointInput config_entryPoint
      then Some (newError
                   ("The EntryPoint at " ++ dquote
                    ++ BundlerServer.toText entryPointInput ++ dquote
                    ++ " is not supported. This bundler uses "
                    ++ config_entryPoint))
      else
        match requireCond hp (negb (BundlerServer.isNullish userOp1))
                          "No UserOperation param" (InvalidFields hp) with
        | Some e => Some e
        | None =>
            match forEachKey (checkField hp userOp1)
                             (fieldsOf requireSignature requireGasParams) with
            | Some e => Some e
            | None =>
                match requireAddressAndFields hp userOp1 "paymaster"
                        ["paymasterPostOpGasLimit"; "paymasterVerificationGasLimit"]
                        (Some ["paymasterData"]) with
                | Some e => Some e
                | None =>
                    requireAddressAndFields hp userOp1 "factory" ["factoryData"] None
                end
            end
        end
  end.

(** What the three conditions and the two helper calls ask of a request. *)
Definition wellFormed (hp : Helpers) (config_entryPoint : string)
    (userOp1 entryPointInput : BundlerServer.Json)
    (requireSignature requireGasParams : bool) : Prop :=
  BundlerServer.isNullish entryPointInput = false
  /\ toLowerCase (BundlerServer.toText entryPointInput)
     = toLowerCase config_entryPoint
  /\ BundlerServer.isNullish userOp1 = false
  /\ (forall key, In key (fieldsOf requireSignature requireGasParams) ->
      exists v,
        BundlerServer.getProp userOp1 key = inr v
        /\ BundlerServer.isNullish v = false
        /\ HEX_REGEX (BundlerServer.toText v) = true)
  /\ requireAddressAndFields hp userOp1 "paymaster"
       ["paymasterPostOpGasLimit"; "paymasterVerificationGasLimit"]
       (Some ["paymasterData"]) = None
  /\ requireAddressAndFields hp userOp1 "factory" ["factoryData"] None = None.

(** Sample helpers and a sample request. *)
Definition sampleHelpers : Helpers :=
  mkHelpers
    (fun cond msg code => if cond then None else Some (BundlerServer.rpcError msg code))
    (fun _ _ _ _ => None)
    (-32602).

Definition sampleUserOp : BundlerServer.Json :=
  BundlerServer.JObj
    [("sender", BundlerServer.JStr "0xAA"); ("nonce", BundlerServer.JStr "0x7");
     ("callData", BundlerServer.JStr "0x"); ("signature", BundlerServer.JStr "0X1F")].

End Validation.

(** * Properties *)

(** ** Induction on traces *)

Lemma TraceItem_ind (P : TraceItem -> Prop) :
  (forall t, Forall P (calls t) -> P t) -> forall t, P t.
Proof.
  intros step. fix IH 1. intros [f g gu t i o cs v e ty].
  apply step. simpl.
  induction cs as [|c cs IHcs]; constructor.
  - apply IH.
  - exact IHcs.
Qed.

(** ** The search loop and the depth loop *)

Lemma find_append {A : Type} (p : A -> bool) (l1 l2 : list A) :
  find p (l1 ++ l2) =
  match find p l1 with
  | Some x => Some x
  | None => find p l2
  end.
Proof.
  induction l1 as [|a l1 IH]; simpl; [reflexivity|].
  destruct (p a); [reflexivity | exact IH].
Qed.

Lemma firstResult_flat_map {A : Type} (p : A -> bool) (f : A -> option A)
    (g : A -> list A) (l : list A) :
  Forall (fun x => f x = find p (g x)) l ->
  firstResult f l = find p (flat_map g l).
Proof.
  induction 1 as [|x l Hx _ IH]; simpl; [reflexivity|].
  rewrite find_append, Hx.
  destruct (find p (g x)); [reflexivity | exact IH].
Qed.

Lemma findRevertedCall_preorder (node : TraceItem) :
  findRevertedCall node = find revertedLeaf (preorder node).
Proof.
  induction node as [node IH] using TraceItem_ind.
  destruct node as [f g gu t i o cs v e ty]; simpl in *.
  unfold revertedLeaf at 1; simpl.
  destruct (_ && _ && _); [reflexivity|].
  apply firstResult_flat_map, IH.
Qed.

Lemma getCallFromTrace_preorder (trace : TraceItem) (from_ to_ selector : string) :
  getCallFromTrace trace from_ to_ selector
  = find (matchesCall from_ to_ selector) (preorder trace).
Proof.
  induction trace as [trace IH] using TraceItem_ind.
  destruct trace as [f g gu t i o cs v e ty]; simpl in *.
  unfold matchesCall at 1; simpl.
  destruct (_ && _ && _); [reflexivity|].
  apply (firstResult_flat_map (matchesCall from_ to_ selector)
           (fun call => getCallFromTrace call from_ to_ selector)), IH.
Qed.

Lemma depth_loop {A : Type} (f : A -> nat) (l : list A) (a : nat) :
  fold_left (fun maxDepth call =>
               let callDepth := f call in
               if (maxDepth <? callDepth)%nat then callDepth else maxDepth) l a
  = Nat.max a (list_max (map f l)).
Proof.
  revert a. induction l as [|c l IH]; intros a; simpl.
  - lia.
  - rewrite IH. destruct (Nat.ltb_spec a (f c)); lia.
Qed.

Lemma getDepth_unfold (traceItem : TraceItem) :
  getDepth traceItem =
  match calls traceItem with
  | [] => 1%nat
  | cs => (1 + list_max (map getDepth cs))%nat
  end.
Proof.
  destruct traceItem as [f g gu t i o cs v e ty].
  destruct cs as [|c cs]; [reflexivity|].
  change (getDepth (mkTraceItem f g gu t i o (c :: cs) v e ty))
    with (fold_left (fun maxDepth call =>
               let callDepth := getDepth call in
               if (maxDepth <? callDepth)%nat then callDepth else maxDepth)
            (c :: cs) 0 + 1)%nat.
  rewrite depth_loop. cbn [calls]. lia.
Qed.

Lemma getDepth_positive (traceItem : TraceItem) : (1 <= getDepth traceItem)%nat.
Proof.
  rewrite getDepth_unfold. destruct (calls traceItem); lia.
Qed.

(** On the values the code divides, rounding toward zero is rounding down. *)
Lemma getCallGasLimit_value (c : TraceItem) :
  truthy (error c) = false ->
  getCallGasLimit (Some c) = inr (scaledLimit (gasUsed c) (getDepth c)).
Proof.
  intros He. unfold getCallGasLimit, scaledLimit. rewrite He. cbv zeta.
  rewrite Z.quot_div_nonneg; [reflexivity | | ].
  - apply Z.mul_nonneg_nonneg; [apply N2Z.is_nonneg | apply Z.pow_nonneg; lia].
  - apply Z.pow_pos_nonneg; lia.
Qed.

(** ** Running the estimate *)

Section EstimateRun.

Variable imp : Imports.
Variable this : MethodHandlerERC4337.
Variable entryPointInput : string.
Variable stateOverride : option StateOverride.
Variable u : UserOperation.t.

Let run := estimateUserOperationGas imp this entryPointInput stateOverride u.

(** A call that throws leaves the operation object as it was, unless the
    error is the one of [calcPreVerificationGas], which is called after the
    assignment to [preVerificationGas]. *)
Lemma estimate_throw_cases (e : JsError) :
  produced run = inl e ->
  operationAfter run = u
  \/ (operationAfter run = UserOperation.set_preVerificationGas 50000 u
      /\ calcPreVerificationGas imp (UserOperation.set_preVerificationGas 50000 u)
         = inl e).
Proof.
  subst run. open_estimate.
  repeat step_estimate; intros H; try (left; reflexivity); try discriminate H.
  right. injection H as <-. split; reflexivity.
Qed.

(** What a call that returns went through, and what it returns. *)
Lemma estimate_return_inv (res : EstimateUserOpGasResult.t) :
  produced run = inr res ->
  exists trace info pm c_exec c_pm c_post c_acct preVerificationGas,
    _validateParameters this u entryPointInput = None
    /\ provider_traceCall this u stateOverride = inr trace
    /\ truthy (error trace) = false
    /\ decodeSimulateHandleOpResult imp (output trace) = inr info
    /\ UserOperation.paymaster u = Some pm
    /\ getCallGasLimit (executeCallOf this u trace) = inr c_exec
    /\ getCallGasLimit (paymasterCallOf this pm trace) = inr c_pm
    /\ getCallGasLimit (postOpCallOf this pm trace) = inr c_post
    /\ getCallGasLimit (verificationCallOf this u trace) = inr c_acct
    /\ operationAfter run = UserOperation.set_preVerificationGas 50000 u
    /\ calcPreVerificationGas imp (UserOperation.set_preVerificationGas 50000 u)
       = inr preVerificationGas
    /\ res = EstimateUserOpGasResult.mk preVerificationGas
               (truncatedShare c_acct (preOpGas info - c_acct - c_pm) 57)
               (fst (mergeValidationDataValues imp (accountValidationData info)
                                               (paymasterValidationData info)))
               (snd (mergeValidationDataValues imp (accountValidationData info)
                                               (paymasterValidationData info)))
               c_exec c_post
               (truncatedShare c_pm (preOpGas info - c_acct - c_pm) 43).
Proof.
  subst run. open_estimate.
  repeat step_estimate; intros H; try discriminate H.
  injection H as <-.
  repeat match goal with
         | H : ?x = _ |- context [?x] => rewrite H
         end.
  do 8 eexists. repeat split; try eassumption; try reflexivity.
  match goal with H : mergeValidationDataValues _ _ _ = _ |- _ => rewrite H end.
  reflexivity.
Qed.

(** The branch taken when the root of the trace reports an error. *)
Lemma estimate_root_error (trace : TraceItem) :
  _validateParameters this u entryPointInput = None ->
  provider_traceCall this u stateOverride = inr trace ->
  truthy (error trace) = true ->
  run = (u, inl (RpcError
                   match findRevertedCall trace with
                   | Some f => getSimulationErrorMessage (Some f)
                   | None => nullish (decodeRevertReason imp (output trace))
                                     "Unexpected error during gas estimation"
                   end
                   UserOperationReverted (findRevertedCall trace))).
Proof.
  intros Hv Ht He. subst run. open_estimate. rewrite Hv, Ht, He.
  destruct (findRevertedCall trace); reflexivity.
Qed.

Section Phases.

Variable trace : TraceItem.
Variable info : ExecutionResult.
Variable pm : string.

Hypothesis accepted : _validateParameters this u entryPointInput = None.
Hypothesis traced : provider_traceCall this u stateOverride = inr trace.
Hypothesis succeeded : truthy (error trace) = false.
Hypothesis decoded : decodeSimulateHandleOpResult imp (output trace) = inr info.
Hypothesis sponsored : UserOperation.paymaster u = Some pm.

(** The first limit computation that throws ends the estimate. *)
Lemma estimate_phase_failure (e : JsError) :
  firstFailure (phaseCalls this u pm trace) = Some e -> run = (u, inl e).
Proof.
  intros Hf. subst run. open_estimate.
  rewrite accepted, traced, succeeded, decoded, sponsored.
  unfold phaseCalls, firstFailure in Hf. open_estimate.
  destruct (mergeValidationDataValues _ _ _).
  repeat match type of Hf with
         | context [getCallGasLimit ?c] => destruct (getCallGasLimit c)
         end; try discriminate Hf; injection Hf as ->; reflexivity.
Qed.

(** When the four limits are computed the operation is assigned to, and the
    outcome of [calcPreVerificationGas] decides the outcome of the estimate. *)
Lemma estimate_calc_failure (c_exec c_pm c_post c_acct : Z) (e : JsError) :
  getCallGasLimit (executeCallOf this u trace) = inr c_exec ->
  getCallGasLimit (paymasterCallOf this pm trace) = inr c_pm ->
  getCallGasLimit (postOpCallOf this pm trace) = inr c_post ->
  getCallGasLimit (verificationCallOf this u trace) = inr c_acct ->
  calcPreVerificationGas imp (UserOperation.set_preVerificationGas 50000 u) = inl e ->
  run = (UserOperation.set_preVerificationGas 50000 u, inl e).
Proof.
  intros H1 H2 H3 H4 H5. subst run. open_estimate.
  rewrite accepted, traced, succeeded, decoded, sponsored.
  destruct (mergeValidationDataValues _ _ _).
  rewrite H1, H2, H3, H4, H5. reflexivity.
Qed.

Lemma estimate_returns (c_exec c_pm c_post c_acct preVerificationGas : Z) :
  getCallGasLimit (executeCallOf this u trace) = inr c_exec ->
  getCallGasLimit (paymasterCallOf this pm trace) = inr c_pm ->
  getCallGasLimit (postOpCallOf this pm trace) = inr c_post ->
  getCallGasLimit (verificationCallOf this u trace) = inr c_acct ->
  calcPreVerificationGas imp (UserOperation.set_preVerificationGas 50000 u)
  = inr preVerificationGas ->
  exists res,
    run = (UserOperation.set_preVerificationGas 50000 u, inr res)
    /\ EstimateUserOpGasResult.callGasLimit res = c_exec
    /\ EstimateUserOpGasResult.paymasterPostOpGasLimit res = c_post
    /\ EstimateUserOpGasResult.verificationGasLimit res
       = truncatedShare c_acct (preOpGas info - c_acct - c_pm) 57
    /\ EstimateUserOpGasResult.paymasterVerificationGasLimit res
       = truncatedShare c_pm (preOpGas info - c_acct - c_pm) 43.
Proof.
  intros H1 H2 H3 H4 H5. subst run. open_estimate.
  rewrite accepted, traced, succeeded, decoded, sponsored.
  destruct (mergeValidationDataValues _ _ _).
  rewrite H1, H2, H3, H4, H5. eexists. split; [reflexivity|].
  repeat split.
Qed.

End Phases.

End EstimateRun.

(** The sample simulation: the limits of the four frames and the budgets. *)
Example scenario_estimate :
  Scenario.run 100000 Scenario.trace Scenario.userOp
  = (UserOperation.set_preVerificationGas 50000 Scenario.userOp,
     inr (EstimateUserOpGasResult.mk 40500 61451 0 281474976710655
            24015 12158 44548)).
Proof. reflexivity. Qed.

(** ** Strings of the error messages *)

Lemma append_assoc (a b c : string) : (a ++ b) ++ c = a ++ (b ++ c).
Proof.
  induction a as [|x a IH]; simpl; [reflexivity | now rewrite IH].
Qed.

Lemma occurs_append (ch : ascii) (a b : string) :
  occurs ch (a ++ b) = occurs ch a || occurs ch b.
Proof.
  induction a as [|x a IH]; simpl; [reflexivity|].
  rewrite IH. apply orb_assoc.
Qed.

Lemma carries_here (t post : string) : carries (t ++ post) t.
Proof. exists "", post. reflexivity. Qed.

Lemma carries_later (pre s t : string) : carries s t -> carries (pre ++ s) t.
Proof.
  intros (a & b & ->). exists (pre ++ a), b. symmetry. apply append_assoc.
Qed.

Lemma carries_end (t : string) : carries t t.
Proof.
  exists "", "". simpl. induction t as [|x t IH]; simpl; [reflexivity|].
  now rewrite <- IH.
Qed.

Create HintDb carries.
#[local] Hint Resolve carries_here carries_later carries_end : carries.

(** The revert message always holds a double quote; the message of a missing
    call holds none. *)
Lemma revert_message_quoted (t : TraceItem) :
  occurs (ascii_of_nat 34) (getSimulationErrorMessage (Some t)) = true.
Proof.
  unfold getSimulationErrorMessage.
  do 8 (rewrite occurs_append; apply orb_true_iff; right).
  rewrite occurs_append. apply orb_true_iff. left. reflexivity.
Qed.

Lemma revert_message_not_no_call (t : TraceItem) :
  getSimulationErrorMessage (Some t) <> NO_CALL_MESSAGE.
Proof.
  intros H. pose proof (revert_message_quoted t) as Hq.
  rewrite H in Hq. discriminate Hq.
Qed.

(** ** Gas limits of located frames *)

(** C1: for a frame located for a marker that carries no error, the gas
    limit is floor(gasUsed * 64^depth / 63^depth) + 2000.  The depth of
    every frame, whether or not it or a frame below it carries an error, is
    1 when it has no child calls and 1 plus the largest depth among its
    child calls otherwise, so the depth of the located frame counts the
    frames on its longest chain of nested calls.  At depth 3 with
    gasUsed = 21000 the limit is floor(21000 * 64^3 / 63^3) + 2000. *)
Theorem getCallGasLimit_scaled_by_depth
    (trace : TraceItem) (from_ to_ selector : string) (call : TraceItem) :
  getCallFromTrace trace from_ to_ selector = Some call ->
  truthy (error call) = false ->
  getCallGasLimit (getCallFromTrace trace from_ to_ selector)
  = inr (Z.of_N (gasUsed call) * 64 ^ Z.of_nat (getDepth call)
         / 63 ^ Z.of_nat (getDepth call) + 2000)
  /\ (forall traceItem : TraceItem,
        getDepth traceItem = match calls traceItem with
                             | [] => 1%nat
                             | cs => (1 + list_max (map getDepth cs))%nat
                             end)
  /\ (getDepth call = 3%nat -> gasUsed call = 21000%N ->
      getCallGasLimit (getCallFromTrace trace from_ to_ selector)
      = inr (21000 * 64 ^ 3 / 63 ^ 3 + 2000)).
Proof.
  intros Hfound Herr. rewrite Hfound.
  pose proof (getCallGasLimit_value call Herr) as Hv. unfold scaledLimit in Hv.
  split; [exact Hv|]. split; [exact getDepth_unfold|].
  intros Hd Hg. rewrite Hv, Hd, Hg. reflexivity.
Qed.

(** The sample execution frame of depth 3, and the frame of depth 4 whose
    child call reverted. *)
Lemma getCallGasLimit_scaled_by_depth_witness :
  getCallGasLimit (executeCallOf (Scenario.handler Scenario.trace) Scenario.userOp
                                 Scenario.trace)
  = inr 24015
  /\ getDepth Scenario.deepExecuteFrame = 4%nat
  /\ getCallGasLimit (executeCallOf (Scenario.handler Scenario.deepTrace)
                                    Scenario.userOp Scenario.deepTrace)
     = inr 24365.
Proof.
  split; [|split].
  - refine (proj2 (proj2 (getCallGasLimit_scaled_by_depth
              Scenario.trace _ _ _ Scenario.executeFrame _ _)) _ _);
      reflexivity.
  - rewrite (proj1 (proj2 (getCallGasLimit_scaled_by_depth
              Scenario.deepTrace "0xee" "0xaa" EXECUTE_USEROP_SELECTOR
              Scenario.deepExecuteFrame eq_refl eq_refl))
              Scenario.deepExecuteFrame).
    reflexivity.
  - exact (proj1 (getCallGasLimit_scaled_by_depth
              Scenario.deepTrace "0xee" "0xaa" EXECUTE_USEROP_SELECTOR
              Scenario.deepExecuteFrame eq_refl eq_refl)).
Defined.

(** C5 (as amended): for a located leaf frame without error the gas limit is
    floor(gasUsed * 64 / 63) + 2000: the 64/63 factor is applied once, so the
    limit is gasUsed + floor(gasUsed / 63) + 2000. *)
Theorem getCallGasLimit_leaf
    (trace : TraceItem) (from_ to_ selector : string) (call : TraceItem) :
  getCallFromTrace trace from_ to_ selector = Some call ->
  calls call = [] ->
  truthy (error call) = false ->
  getDepth call = 1%nat
  /\ getCallGasLimit (getCallFromTrace trace from_ to_ selector)
     = inr (Z.of_N (gasUsed call) * 64 / 63 + 2000)
  /\ Z.of_N (gasUsed call) * 64 / 63 + 2000
     = Z.of_N (gasUsed call) + Z.of_N (gasUsed call) / 63 + 2000.
Proof.
  intros Hfound Hleaf Herr. rewrite Hfound.
  assert (Hd : getDepth call = 1%nat) by (rewrite getDepth_unfold, Hleaf; reflexivity).
  split; [exact Hd|]. split.
  - rewrite (getCallGasLimit_value call Herr). unfold scaledLimit. rewrite Hd.
    reflexivity.
  - replace (Z.of_N (gasUsed call) * 64)
      with (Z.of_N (gasUsed call) + Z.of_N (gasUsed call) * 63) by ring.
    pose proof (N2Z.is_nonneg (gasUsed call)).
    rewrite Z.div_add by lia. lia.
Qed.

Lemma getCallGasLimit_leaf_witness :
  getDepth Scenario.paymasterFrame = 1%nat
  /\ getCallGasLimit (paymasterCallOf (Scenario.handler Scenario.trace) "0xBB"
                                      Scenario.trace)
     = inr (20000 * 64 / 63 + 2000)
  /\ 20000 * 64 / 63 + 2000 = 20000 + 20000 / 63 + 2000.
Proof.
  apply (getCallGasLimit_leaf Scenario.trace _ _ _ Scenario.paymasterFrame);
    reflexivity.
Defined.

(** C5 as stated fails: the located leaf frame of the paymaster validation
    has gasUsed = 20000 and no error, and its limit is 22317, not 22000. *)
Lemma leaf_limit_is_scaled :
  exists call,
    paymasterCallOf (Scenario.handler Scenario.trace) "0xBB" Scenario.trace = Some call
    /\ calls call = []
    /\ getDepth call = 1%nat
    /\ truthy (error call) = false
    /\ getCallGasLimit (Some call) = inr 22317
    /\ getCallGasLimit (Some call) <> inr (Z.of_N (gasUsed call) + 2000).
Proof.
  exists Scenario.paymasterFrame. repeat split. discriminate.
Qed.

(** C3: the search returns the first frame in depth-first order whose caller,
    callee and 10-character input prefix match the marker.  For every marker,
    when the search finds no frame the limit computation throws the error of
    a missing call ("No call was made"), which no revert error equals; when
    the frame is found and carries an error it throws a revert error whose
    message carries the call type, the callee, the input and the output of
    the frame and whose data is the frame.  The estimate throws the error of
    the first marker, in the order execute, validate-paymaster, post-op,
    verification, whose computation throws. *)
Theorem getCallGasLimit_signals :
  (forall trace from_ to_ selector,
      getCallFromTrace trace from_ to_ selector
      = find (matchesCall from_ to_ selector) (preorder trace))
  /\ (forall trace from_ to_ selector,
         getCallFromTrace trace from_ to_ selector = None ->
         getCallGasLimit (getCallFromTrace trace from_ to_ selector)
         = inl (RpcError NO_CALL_MESSAGE UserOperationReverted None))
  /\ (forall trace from_ to_ selector call,
         getCallFromTrace trace from_ to_ selector = Some call ->
         truthy (error call) = true ->
         let msg := getSimulationErrorMessage (Some call) in
         getCallGasLimit (getCallFromTrace trace from_ to_ selector)
         = inl (RpcError msg UserOperationReverted (Some call))
         /\ carries msg (type call) /\ carries msg (to call)
         /\ carries msg (input call) /\ carries msg (output call)
         /\ msg <> NO_CALL_MESSAGE
         /\ RpcError msg UserOperationReverted (Some call)
            <> RpcError NO_CALL_MESSAGE UserOperationReverted None)
  /\ (forall imp this entryPointInput stateOverride u trace info pm e,
         _validateParameters this u entryPointInput = None ->
         provider_traceCall this u stateOverride = inr trace ->
         truthy (error trace) = false ->
         decodeSimulateHandleOpResult imp (output trace) = inr info ->
         UserOperation.paymaster u = Some pm ->
         firstFailure (phaseCalls this u pm trace) = Some e ->
         estimateUserOperationGas imp this entryPointInput stateOverride u
         = (u, inl e)).
Proof.
  split; [|split; [|split]].
  - exact getCallFromTrace_preorder.
  - intros trace from_ to_ selector ->. reflexivity.
  - intros trace from_ to_ selector call -> He msg.
    unfold getCallGasLimit. rewrite He. subst msg.
    split; [reflexivity|].
    unfold getSimulationErrorMessage.
    repeat split; auto 20 with carries.
    + apply (revert_message_not_no_call call).
    + discriminate.
  - intros. eapply estimate_phase_failure; eassumption.
Qed.

Lemma getCallGasLimit_signals_witness :
  estimateUserOperationGas (Scenario.imports 100000)
    (Scenario.handler Scenario.unsponsoredTrace) "0xEE" None Scenario.userOp
  = (Scenario.userOp, inl (RpcError NO_CALL_MESSAGE UserOperationReverted None))
  /\ getCallGasLimit (executeCallOf (Scenario.handler Scenario.failedExecuteTrace)
                         Scenario.userOp Scenario.failedExecuteTrace)
     = inl (RpcError (getSimulationErrorMessage (Some Scenario.failedExecuteFrame))
                     UserOperationReverted (Some Scenario.failedExecuteFrame)).
Proof.
  split.
  - apply (proj2 (proj2 (proj2 getCallGasLimit_signals)) (Scenario.imports 100000)
             (Scenario.handler Scenario.unsponsoredTrace) "0xEE" None
             Scenario.userOp Scenario.unsponsoredTrace
             (mkExecutionResult 100000 0 0) "0xBB"); reflexivity.
  - apply (proj1 (proj2 (proj2 getCallGasLimit_signals)) Scenario.failedExecuteTrace
             _ _ _ Scenario.failedExecuteFrame); reflexivity.
Defined.

(** ** Reverted simulations *)

Lemma findRevertedCall_some (node f : TraceItem) :
  findRevertedCall node = Some f ->
  In f (preorder node) /\ calls f = [] /\ truthy (error f) = true
  /\ type f <> "STATICCALL".
Proof.
  rewrite findRevertedCall_preorder. intros H.
  apply find_some in H as [Hin Hp]. split; [exact Hin|].
  unfold revertedLeaf, noCalls in Hp.
  apply andb_true_iff in Hp as [Hp Hty]. apply andb_true_iff in Hp as [Hleaf Herr].
  repeat split.
  - destruct (calls f); [reflexivity | discriminate Hleaf].
  - exact Herr.
  - apply String.eqb_neq. apply negb_true_iff. exact Hty.
Qed.

Lemma findRevertedCall_none (node : TraceItem) :
  onlyStaticErrors node -> findRevertedCall node = None.
Proof.
  intros Hall. destruct (findRevertedCall node) as [f|] eqn:Hf; [|reflexivity].
  apply findRevertedCall_some in Hf as (Hin & Hleaf & Herr & Hty).
  exfalso. apply Hty, Hall; [exact Hin|].
  unfold erroredLeaf, noCalls. rewrite Hleaf, Herr. reflexivity.
Qed.

(** C4 (as amended): when the root of the trace reports an error, the frame
    reported is the first frame, in depth-first order, that is a leaf,
    carries an error and is not a static call; the error thrown carries that
    frame and its revert message.  When there is no such frame the error
    carries no frame, and its message is the decoded revert reason of the
    root output, or "Unexpected error during gas estimation" when that does
    not decode. *)
Theorem estimate_reports_first_reverted_leaf
    (imp : Imports) (this : MethodHandlerERC4337) (entryPointInput : string)
    (stateOverride : option StateOverride) (u : UserOperation.t)
    (trace : TraceItem) :
  _validateParameters this u entryPointInput = None ->
  provider_traceCall this u stateOverride = inr trace ->
  truthy (error trace) = true ->
  findRevertedCall trace = find revertedLeaf (preorder trace)
  /\ estimateUserOperationGas imp this entryPointInput stateOverride u
     = (u, inl (RpcError
                  match find revertedLeaf (preorder trace) with
                  | Some f => getSimulationErrorMessage (Some f)
                  | None => nullish (decodeRevertReason imp (output trace))
                                    "Unexpected error during gas estimation"
                  end
                  UserOperationReverted (find revertedLeaf (preorder trace)))).
Proof.
  intros Hv Ht He. split; [apply findRevertedCall_preorder|].
  rewrite <- findRevertedCall_preorder.
  apply estimate_root_error; assumption.
Qed.

Lemma estimate_reports_first_reverted_leaf_witness :
  findRevertedCall Scenario.revertedTrace
  = find revertedLeaf (preorder Scenario.revertedTrace)
  /\ Scenario.run 100000 Scenario.revertedTrace Scenario.userOp
     = (Scenario.userOp,
        inl (RpcError (getSimulationErrorMessage (Some Scenario.callLeaf))
                      UserOperationReverted (Some Scenario.callLeaf))).
Proof.
  apply (estimate_reports_first_reverted_leaf (Scenario.imports 100000)
           (Scenario.handler Scenario.revertedTrace) "0xEE" None Scenario.userOp
           Scenario.revertedTrace); reflexivity.
Defined.

(** C4 as stated fails: in this trace the first errored leaf in depth-first
    order is a static call, and the frame reported is the errored leaf after
    it. *)
Lemma first_errored_leaf_not_reported :
  truthy (error Scenario.revertedTrace) = true
  /\ find erroredLeaf (preorder Scenario.revertedTrace) = Some Scenario.staticLeaf
  /\ produced (Scenario.run 100000 Scenario.revertedTrace Scenario.userOp)
     = inl (RpcError (getSimulationErrorMessage (Some Scenario.callLeaf))
                     UserOperationReverted (Some Scenario.callLeaf))
  /\ produced (Scenario.run 100000 Scenario.revertedTrace Scenario.userOp)
     <> inl (RpcError (getSimulationErrorMessage (Some Scenario.staticLeaf))
                      UserOperationReverted (Some Scenario.staticLeaf)).
Proof.
  repeat split. discriminate.
Qed.

(** C10: [findRevertedCall] never returns a frame of type STATICCALL; when
    every errored leaf of the trace is a static call it returns null, and the
    estimate then throws the error of the fallback branch, which carries no
    frame: its message is the decoded reason of the root output, or
    "Unexpected error during gas estimation". *)
Theorem findRevertedCall_skips_static_calls :
  (forall node f, findRevertedCall node = Some f -> type f <> "STATICCALL")
  /\ (forall node, onlyStaticErrors node -> findRevertedCall node = None)
  /\ (forall imp this entryPointInput stateOverride u trace,
         _validateParameters this u entryPointInput = None ->
         provider_traceCall this u stateOverride = inr trace ->
         truthy (error trace) = true ->
         onlyStaticErrors trace ->
         estimateUserOperationGas imp this entryPointInput stateOverride u
         = (u, inl (RpcError
                      (nullish (decodeRevertReason imp (output trace))
                               "Unexpected error during gas estimation")
                      UserOperationReverted None))).
Proof.
  split; [|split].
  - intros node f H. apply (findRevertedCall_some node f H).
  - exact findRevertedCall_none.
  - intros imp this entryPointInput stateOverride u trace Hv Ht He Hs.
    rewrite (estimate_root_error imp this entryPointInput stateOverride u trace Hv Ht He).
    rewrite (findRevertedCall_none trace Hs). reflexivity.
Qed.

Lemma findRevertedCall_skips_static_calls_witness :
  Scenario.run 100000 Scenario.staticOnlyTrace Scenario.userOp
  = (Scenario.userOp,
     inl (RpcError "Error(AA23 reverted)" UserOperationReverted None)).
Proof.
  apply (proj2 (proj2 findRevertedCall_skips_static_calls) (Scenario.imports 100000)
           (Scenario.handler Scenario.staticOnlyTrace) "0xEE" None Scenario.userOp
           Scenario.staticOnlyTrace); try reflexivity.
  intros f Hin Hleaf. simpl in Hin.
  destruct Hin as [<-|[<-|[<-|[]]]]; try discriminate Hleaf. reflexivity.
Defined.

(** ** Operations without a paymaster *)

(** C9: for an operation whose paymaster is absent the estimate throws and
    returns no result; once the simulation has been decoded, what it throws
    is the TypeError of reading [toLowerCase] off the absent paymaster.  An
    estimate that returns comes from an operation with a paymaster whose
    validate-paymaster and post-op frames were both found. *)
Theorem estimate_without_paymaster_throws :
  (forall imp this entryPointInput stateOverride u,
      UserOperation.paymaster u = None ->
      exists e,
        estimateUserOperationGas imp this entryPointInput stateOverride u
        = (u, inl e))
  /\ (forall imp this entryPointInput stateOverride u trace info,
         UserOperation.paymaster u = None ->
         _validateParameters this u entryPointInput = None ->
         provider_traceCall this u stateOverride = inr trace ->
         truthy (error trace) = false ->
         decodeSimulateHandleOpResult imp (output trace) = inr info ->
         estimateUserOperationGas imp this entryPointInput stateOverride u
         = (u, inl (TypeError
                      "Cannot read properties of undefined (reading 'toLowerCase')")))
  /\ (forall imp this entryPointInput stateOverride u res,
         produced (estimateUserOperationGas imp this entryPointInput stateOverride u)
         = inr res ->
         exists trace pm validateFrame postOpFrame,
           provider_traceCall this u stateOverride = inr trace
           /\ UserOperation.paymaster u = Some pm
           /\ paymasterCallOf this pm trace = Some validateFrame
           /\ postOpCallOf this pm trace = Some postOpFrame).
Proof.
  split; [|split].
  - intros imp this entryPointInput stateOverride u Hp.
    open_estimate. rewrite Hp.
    repeat step_estimate; eexists; reflexivity.
  - intros imp this entryPointInput stateOverride u trace info Hp Hv Ht He Hd.
    open_estimate.
    rewrite Hv, Ht, He, Hd, Hp. destruct (mergeValidationDataValues _ _ _).
    reflexivity.
  - intros imp this entryPointInput stateOverride u res H.
    apply estimate_return_inv in H
      as (trace & info & pm & c_exec & c_pm & c_post & c_acct & pvg
          & _ & Ht & _ & _ & Hp & _ & Hpm & Hpost & _).
    destruct (paymasterCallOf this pm trace) as [f1|] eqn:H1; [|discriminate Hpm].
    destruct (postOpCallOf this pm trace) as [f2|] eqn:H2; [|discriminate Hpost].
    exists trace, pm, f1, f2. repeat split; assumption.
Qed.

Lemma estimate_without_paymaster_throws_witness :
  exists e, Scenario.run 100000 Scenario.trace Scenario.bareOp
            = (Scenario.bareOp, inl e).
Proof.
  exact (proj1 estimate_without_paymaster_throws (Scenario.imports 100000)
           (Scenario.handler Scenario.trace) "0xEE" None Scenario.bareOp eq_refl).
Defined.

(** ** The verification budgets *)

Lemma truncatedShare_nonneg (limit overhead percent : Z) :
  0 <= overhead -> 0 <= percent ->
  truncatedShare limit overhead percent = flooredShare limit overhead percent.
Proof.
  intros Ho Hp. unfold truncatedShare, flooredShare.
  rewrite Z.quot_div_nonneg; [reflexivity | nia | lia].
Qed.

(** C2 (as amended): in an estimate that returns, the overhead is preOpGas
    minus the account-verification limit minus the paymaster-verification
    limit; verificationGasLimit is the account limit plus overhead * 57 / 100
    plus 3000 and paymasterVerificationGasLimit is the paymaster limit plus
    overhead * 43 / 100 plus 3000, each quotient rounded toward zero, which is
    the floor whenever the overhead is not negative. *)
Theorem estimate_verification_budgets
    (imp : Imports) (this : MethodHandlerERC4337) (entryPointInput : string)
    (stateOverride : option StateOverride) (u : UserOperation.t)
    (res : EstimateUserOpGasResult.t) :
  produced (estimateUserOperationGas imp this entryPointInput stateOverride u) = inr res ->
  exists trace info pm c_acct c_pm,
    provider_traceCall this u stateOverride = inr trace
    /\ decodeSimulateHandleOpResult imp (output trace) = inr info
    /\ UserOperation.paymaster u = Some pm
    /\ getCallGasLimit (verificationCallOf this u trace) = inr c_acct
    /\ getCallGasLimit (paymasterCallOf this pm trace) = inr c_pm
    /\ let overhead := preOpGas info - c_acct - c_pm in
       EstimateUserOpGasResult.verificationGasLimit res
       = c_acct + Z.quot (overhead * 57) 100 + 3000
       /\ EstimateUserOpGasResult.paymasterVerificationGasLimit res
          = c_pm + Z.quot (overhead * 43) 100 + 3000
       /\ (0 <= overhead ->
           EstimateUserOpGasResult.verificationGasLimit res
           = c_acct + overhead * 57 / 100 + 3000
           /\ EstimateUserOpGasResult.paymasterVerificationGasLimit res
              = c_pm + overhead * 43 / 100 + 3000).
Proof.
  intros H.
  apply estimate_return_inv in H
    as (trace & info & pm & c_exec & c_pm & c_post & c_acct & pvg
        & _ & Ht & _ & Hd & Hp & _ & Hpm & _ & Hacct & _ & _ & ->).
  exists trace, info, pm, c_acct, c_pm.
  repeat (split; [assumption|]). cbv zeta. cbn.
  split; [reflexivity|]. split; [reflexivity|].
  intros Ho.
  split; apply truncatedShare_nonneg; lia.
Qed.

Lemma estimate_verification_budgets_witness :
  exists res,
    produced (Scenario.run 100000 Scenario.trace Scenario.userOp) = inr res
    /\ EstimateUserOpGasResult.verificationGasLimit res = 61451
    /\ EstimateUserOpGasResult.paymasterVerificationGasLimit res = 44548.
Proof.
  eexists. split; [reflexivity|].
  destruct (estimate_verification_budgets (Scenario.imports 100000)
              (Scenario.handler Scenario.trace) "0xEE" None Scenario.userOp _ eq_refl)
    as (trace & info & pm & c_acct & c_pm & Ht & Hd & Hp & Hacct & Hpm & Hv & Hm & _).
  injection Ht as <-. injection Hd as <-. injection Hp as <-.
  injection Hacct as <-. injection Hpm as <-.
  split; [exact Hv | exact Hm].
Defined.

(** C2 as stated fails: with preOpGas = 55000 the limits are 32959 and
    22317, the overhead is -276, and the budgets returned are 35802 and
    25199, one more than the floored shares give. *)
Lemma estimate_budgets_not_floored :
  exists res,
    produced (Scenario.run 55000 Scenario.trace Scenario.userOp) = inr res
    /\ getCallGasLimit (verificationCallOf (Scenario.handler Scenario.trace)
                          Scenario.userOp Scenario.trace) = inr 32959
    /\ getCallGasLimit (paymasterCallOf (Scenario.handler Scenario.trace) "0xBB"
                          Scenario.trace) = inr 22317
    /\ EstimateUserOpGasResult.verificationGasLimit res = 35802
    /\ EstimateUserOpGasResult.verificationGasLimit res
       <> flooredShare 32959 (55000 - 32959 - 22317) 57
    /\ EstimateUserOpGasResult.paymasterVerificationGasLimit res = 25199
    /\ EstimateUserOpGasResult.paymasterVerificationGasLimit res
       <> flooredShare 22317 (55000 - 32959 - 22317) 43.
Proof.
  eexists. split; [reflexivity|].
  repeat split; discriminate.
Qed.

(** ** The operation object *)

Lemma set_preVerificationGas_same (v : Z) (u : UserOperation.t) :
  sameButPreVerificationGas u (UserOperation.set_preVerificationGas v u)
  /\ UserOperation.preVerificationGas (UserOperation.set_preVerificationGas v u) = v.
Proof.
  unfold sameButPreVerificationGas. repeat split.
Qed.

(** C6 (as amended): the estimate changes no field of the operation object
    other than preVerificationGas.  An estimate that returns has assigned
    50000 to preVerificationGas.  An estimate that throws has left the object
    as it was, unless the error is the one thrown by calcPreVerificationGas,
    which is called after the assignment: then the object holds 50000 as
    well.  That case arises whenever the four limits are computed and
    calcPreVerificationGas throws on the operation assigned to. *)
Theorem estimate_operation_after
    (imp : Imports) (this : MethodHandlerERC4337) (entryPointInput : string)
    (stateOverride : option StateOverride) (u : UserOperation.t) :
  let r := estimateUserOperationGas imp this entryPointInput stateOverride u in
  let assigned := UserOperation.set_preVerificationGas 50000 u in
  sameButPreVerificationGas u (operationAfter r)
  /\ (forall res, produced r = inr res ->
        UserOperation.preVerificationGas (operationAfter r) = 50000
        /\ operationAfter r = assigned)
  /\ (forall e, produced r = inl e ->
        operationAfter r = u
        \/ (operationAfter r = assigned
            /\ calcPreVerificationGas imp assigned = inl e))
  /\ (forall trace info pm c_exec c_pm c_post c_acct e,
        _validateParameters this u entryPointInput = None ->
        provider_traceCall this u stateOverride = inr trace ->
        truthy (error trace) = false ->
        decodeSimulateHandleOpResult imp (output trace) = inr info ->
        UserOperation.paymaster u = Some pm ->
        getCallGasLimit (executeCallOf this u trace) = inr c_exec ->
        getCallGasLimit (paymasterCallOf this pm trace) = inr c_pm ->
        getCallGasLimit (postOpCallOf this pm trace) = inr c_post ->
        getCallGasLimit (verificationCallOf this u trace) = inr c_acct ->
        calcPreVerificationGas imp assigned = inl e ->
        r = (assigned, inl e)).
Proof.
  intros r assigned.
  assert (Hret : forall res, produced r = inr res -> operationAfter r = assigned).
  { intros res H.
    apply estimate_return_inv in H
      as (trace & info & pm & c_exec & c_pm & c_post & c_acct & pvg
          & _ & _ & _ & _ & _ & _ & _ & _ & _ & Hafter & _).
    exact Hafter. }
  pose proof (estimate_throw_cases imp this entryPointInput stateOverride u) as Hthrow.
  fold r in Hthrow.
  split; [|split; [|split]].
  - destruct (produced r) as [e|res] eqn:Hr.
    + destruct (Hthrow e eq_refl) as [-> | [-> _]].
      * unfold sameButPreVerificationGas. repeat split.
      * apply set_preVerificationGas_same.
    + rewrite (Hret res eq_refl). apply set_preVerificationGas_same.
  - intros res H. rewrite (Hret res H). split; reflexivity.
  - exact Hthrow.
  - intros trace info pm c_exec c_pm c_post c_acct e Hv Ht He Hd Hp H1 H2 H3 H4 H5.
    exact (estimate_calc_failure imp this entryPointInput stateOverride u trace info pm
             Hv Ht He Hd Hp c_exec c_pm c_post c_acct e H1 H2 H3 H4 H5).
Qed.

Lemma estimate_operation_after_witness :
  UserOperation.preVerificationGas
    (operationAfter (Scenario.run 100000 Scenario.trace Scenario.userOp)) = 50000
  /\ operationAfter (Scenario.run 100000 Scenario.trace Scenario.bareOp)
     = Scenario.bareOp
  /\ estimateUserOperationGas (Scenario.failingImports 100000)
       (Scenario.handler Scenario.trace) "0xEE" None Scenario.userOp
     = (UserOperation.set_preVerificationGas 50000 Scenario.userOp,
        inl (ExternalError "invalid arrayify value")).
Proof.
  split; [|split].
  - eapply (proj1 (proj2 (estimate_operation_after (Scenario.imports 100000)
                     (Scenario.handler Scenario.trace) "0xEE" None Scenario.userOp))).
    reflexivity.
  - destruct (proj1 (proj2 (proj2 (estimate_operation_after (Scenario.imports 100000)
                     (Scenario.handler Scenario.trace) "0xEE" None Scenario.bareOp)))
                (TypeError "Cannot read properties of undefined (reading 'toLowerCase')")
                eq_refl) as [H | [_ H]].
    + exact H.
    + discriminate H.
  - eapply (proj2 (proj2 (proj2 (estimate_operation_after (Scenario.failingImports 100000)
                     (Scenario.handler Scenario.trace) "0xEE" None Scenario.userOp))));
      reflexivity.
Defined.

(** C6 as stated fails: this estimate returns, and the operation it was
    given has preVerificationGas 0 before the call and 50000 after it. *)
Lemma estimate_assigns_preVerificationGas :
  (exists res, produced (Scenario.run 100000 Scenario.trace Scenario.userOp) = inr res)
  /\ UserOperation.preVerificationGas Scenario.userOp = 0
  /\ UserOperation.preVerificationGas
       (operationAfter (Scenario.run 100000 Scenario.trace Scenario.userOp)) = 50000
  /\ operationAfter (Scenario.run 100000 Scenario.trace Scenario.userOp)
     <> Scenario.userOp.
Proof.
  split; [eexists; reflexivity|]. repeat split. discriminate.
Qed.

(** ** The beneficiary *)

Lemma selectBeneficiary_cases (this : MethodHandlerERC4337) (currentBalance : Z) :
  provider_getBalance this (signer_getAddress this) = inr currentBalance ->
  selectBeneficiary this
  = inr (if currentBalance <=? minBalance (config this)
         then signer_getAddress this
         else beneficiary (config this)).
Proof.
  intros H. unfold selectBeneficiary. rewrite H.
  destruct (currentBalance <=? minBalance (config this)); reflexivity.
Qed.

(** C7 at the input on which the code departs from it: whatever the
    configuration, when the signer balance equals the configured minimum
    [selectBeneficiary] returns the signer's own address. *)
Theorem selectBeneficiary_at_minimum
    (validate : UserOperation.t -> string -> option JsError)
    (traceCall : UserOperation.t -> option StateOverride -> JsError + TraceItem)
    (signer beneficiary_ entryPoint_ address : string) (minBalance_ : Z) :
  selectBeneficiary
    (mkMethodHandlerERC4337 validate (fun _ => inr minBalance_) traceCall signer
       (mkBundlerConfig beneficiary_ minBalance_ entryPoint_) address)
  = inr signer.
Proof.
  unfold selectBeneficiary. cbn. rewrite Z.leb_refl. reflexivity.
Qed.

(** ** The RPC server *)

(** A request item other than [null] and [undefined] gets a response, unless
    the handler throws [null] or [undefined]: the response carries the
    hexlified result when the handler returns, and otherwise the [message],
    [data] and [code] of what it threw. *)
Lemma handleRpc_responds (h : BundlerServer.Handlers) (reqItem : BundlerServer.Json) :
  BundlerServer.isNullish reqItem = false ->
  exists method params jsonrpc id,
    BundlerServer.destructure reqItem = inr (method, params, jsonrpc, id)
    /\ BundlerServer.handleRpc h reqItem
       = match BundlerServer.obind (BundlerServer.handleMethod h method params)
                                   (BundlerServer.deepHexlify h) with
         | inr result =>
             inr (BundlerServer.mkResponse jsonrpc id (BundlerServer.Result result))
         | inl (BundlerServer.ThrownValue own inner) =>
             inr (BundlerServer.mkResponse jsonrpc id
                    (BundlerServer.Error (match inner with
                                          | Some e => e
                                          | None => own
                                          end)))
         | inl BundlerServer.ThrownNullish =>
             inl (BundlerServer.typeError
                    "Cannot read properties of undefined (reading 'message')")
         end.
Proof.
  intros Hn. unfold BundlerServer.handleRpc.
  assert (Hd : exists m p j i, BundlerServer.destructure reqItem = inr (m, p, j, i)).
  { destruct reqItem; try discriminate Hn; cbn; do 4 eexists; reflexivity. }
  destruct Hd as (m & p & j & i & Hd). exists m, p, j, i.
  split; [exact Hd|]. rewrite Hd.
  destruct (BundlerServer.obind _ _) as [[|own [inner|]]|result]; reflexivity.
Qed.

(** A method no case of the dispatch names is answered with the error of an
    unsupported method, code -32601. *)
Example handleRpc_unknown_method :
  BundlerServer.handleRpc Scenario.handlers
    (BundlerServer.JObj [("id", BundlerServer.JNum 7);
                         ("method", BundlerServer.JStr "eth_call")])
  = inr (BundlerServer.mkResponse BundlerServer.JUndefined (BundlerServer.JNum 7)
           (BundlerServer.Error
              (BundlerServer.mkErrorObject
                 (BundlerServer.JStr "Method eth_call is not supported")
                 BundlerServer.JUndefined (BundlerServer.JNum (-32601))))).
Proof. reflexivity. Qed.

(** C8 at the input on which the code departs from it: for the request item
    [null] the destructuring that precedes the try block throws, so
    [handleRpc] returns no response, and neither does [rpc] for a batch that
    holds it. *)
Theorem handleRpc_null_item_throws (h : BundlerServer.Handlers) :
  BundlerServer.handleRpc h BundlerServer.JNull
  = inl (BundlerServer.typeError
           "Cannot read properties of null or undefined (reading 'method')")
  /\ BundlerServer.rpc h (BundlerServer.JArr [BundlerServer.JNull])
     = inl (BundlerServer.typeError
              "Cannot read properties of null or undefined (reading 'method')").
Proof.
  split; reflexivity.
Qed.

(** * Further properties of the code *)

(** ** Bounds on the gas limits *)

Lemma scaled_quotient_mono (g1 g2 : Z) (d1 d2 : nat) :
  0 <= g1 <= g2 -> (d1 <= d2)%nat ->
  g1 * 64 ^ Z.of_nat d1 / 63 ^ Z.of_nat d1
  <= g2 * 64 ^ Z.of_nat d2 / 63 ^ Z.of_nat d2.
Proof.
  intros Hg Hd.
  assert (H63 : forall n, 0 < 63 ^ Z.of_nat n) by (intros; apply Z.pow_pos_nonneg; lia).
  assert (H64 : forall n, 0 < 64 ^ Z.of_nat n) by (intros; apply Z.pow_pos_nonneg; lia).
  replace d2 with (d1 + (d2 - d1))%nat by lia.
  set (k := (d2 - d1)%nat).
  rewrite Nat2Z.inj_add, !Z.pow_add_r by lia.
  apply Z.div_le_lower_bound; [pose proof (H63 d1); pose proof (H63 k); nia|].
  pose proof (Z.mul_div_le (g1 * 64 ^ Z.of_nat d1) (63 ^ Z.of_nat d1) (H63 d1)) as Hq.
  assert (Hk : 63 ^ Z.of_nat k <= 64 ^ Z.of_nat k)
    by (apply Z.pow_le_mono_l; lia).
  pose proof (H63 k). pose proof (H64 k). pose proof (H64 d1).
  set (q := g1 * 64 ^ Z.of_nat d1 / 63 ^ Z.of_nat d1) in *.
  set (a := 63 ^ Z.of_nat d1) in *. set (b := 63 ^ Z.of_nat k) in *.
  set (c := 64 ^ Z.of_nat d1) in *. set (e := 64 ^ Z.of_nat k) in *.
  clearbody q a b c e.
  assert (Ha : b * (a * q) <= b * (g1 * c))
    by (apply Z.mul_le_mono_nonneg_l; lia).
  assert (Hgc : 0 <= g1 * c) by (apply Z.mul_nonneg_nonneg; lia).
  assert (Hb : b * (g1 * c) <= e * (g1 * c))
    by (apply Z.mul_le_mono_nonneg_r; lia).
  assert (Hc : g1 * (c * e) <= g2 * (c * e))
    by (apply Z.mul_le_mono_nonneg_r; [apply Z.mul_nonneg_nonneg; lia | lia]).
  replace (a * b * q) with (b * (a * q)) by ring.
  replace (e * (g1 * c)) with (g1 * (c * e)) in Hb by ring.
  lia.
Qed.

(** X1: the limit of a frame without error is never below its gasUsed plus
    2000, and it grows with gasUsed and with the depth of the frame. *)
Theorem getCallGasLimit_bounds (c1 c2 : TraceItem) :
  truthy (error c1) = false -> truthy (error c2) = false ->
  (gasUsed c1 <= gasUsed c2)%N -> (getDepth c1 <= getDepth c2)%nat ->
  exists limit1 limit2,
    getCallGasLimit (Some c1) = inr limit1
    /\ getCallGasLimit (Some c2) = inr limit2
    /\ Z.of_N (gasUsed c1) + 2000 <= limit1
    /\ limit1 <= limit2.
Proof.
  intros He1 He2 Hg Hd.
  rewrite (getCallGasLimit_value c1 He1), (getCallGasLimit_value c2 He2).
  do 2 eexists. split; [reflexivity|]. split; [reflexivity|].
  unfold scaledLimit. pose proof (N2Z.is_nonneg (gasUsed c1)). split.
  - pose proof (scaled_quotient_mono (Z.of_N (gasUsed c1)) (Z.of_N (gasUsed c1))
                  0 (getDepth c1)) as Hm.
    cbn [Z.of_nat] in Hm. rewrite Z.pow_0_r, Z.mul_1_r, Z.div_1_r in Hm.
    specialize (Hm ltac:(lia) ltac:(lia)). lia.
  - pose proof (scaled_quotient_mono (Z.of_N (gasUsed c1)) (Z.of_N (gasUsed c2))
                  (getDepth c1) (getDepth c2) ltac:(lia) Hd). lia.
Qed.

Lemma getCallGasLimit_bounds_witness :
  exists limit1 limit2,
    getCallGasLimit (Some Scenario.postOpFrame) = inr limit1
    /\ getCallGasLimit (Some Scenario.executeFrame) = inr limit2
    /\ 10000 + 2000 <= limit1
    /\ limit1 <= limit2.
Proof.
  apply (getCallGasLimit_bounds Scenario.postOpFrame Scenario.executeFrame);
    try reflexivity.
  - discriminate.
  - cbn. lia.
Defined.

Lemma list_max_in (l : list nat) (n : nat) : In n l -> (n <= list_max l)%nat.
Proof.
  intros Hin.
  pose proof (proj1 (list_max_le l (list_max l)) (Nat.le_refl _)) as Hall.
  rewrite Forall_forall in Hall. apply Hall, Hin.
Qed.

Lemma getDepth_child (t c : TraceItem) :
  In c (calls t) -> (getDepth c < getDepth t)%nat.
Proof.
  intros Hin. rewrite (getDepth_unfold t).
  destruct (calls t) as [|c0 cs] eqn:Hc; [destruct Hin|].
  assert (getDepth c <= list_max (map getDepth (c0 :: cs)))%nat
    by (apply list_max_in, in_map, Hin).
  lia.
Qed.

(** X2: every frame inside a trace is at most as deep as the trace, and the
    frames under a child call are strictly shallower than the parent. *)
Theorem getDepth_nested (t f : TraceItem) :
  In f (preorder t) ->
  (getDepth f <= getDepth t)%nat
  /\ (forall c, In c (calls t) -> In f (preorder c) ->
      (getDepth f < getDepth t)%nat).
Proof.
  revert f. induction t as [t IH] using TraceItem_ind. intros f Hin.
  assert (Hsub : forall c, In c (calls t) -> In f (preorder c) ->
                 (getDepth f < getDepth t)%nat).
  { intros c Hc Hf. rewrite Forall_forall in IH.
    destruct (IH c Hc f Hf) as [Hle _].
    pose proof (getDepth_child t c Hc). lia. }
  split; [|exact Hsub].
  destruct t as [a b c0 d e g cs v er ty]. cbn [preorder calls] in *.
  destruct Hin as [<-|Hin]; [lia|].
  apply in_flat_map in Hin as (c & Hc & Hf).
  specialize (Hsub c Hc Hf). lia.
Qed.

Lemma getDepth_nested_witness :
  (getDepth Scenario.leaf <= getDepth Scenario.trace)%nat
  /\ (getDepth Scenario.leaf < getDepth Scenario.trace)%nat.
Proof.
  assert (Hin : In Scenario.leaf (preorder Scenario.trace))
    by (cbn; do 6 right; left; reflexivity).
  destruct (getDepth_nested Scenario.trace Scenario.leaf Hin) as [Hle Hlt].
  split; [exact Hle|].
  apply (Hlt Scenario.executeFrame).
  - cbn. do 2 right. left. reflexivity.
  - cbn. do 2 right. left. reflexivity.
Defined.

(** X3: whenever some leaf of the trace carries an error and is not a static
    call, [findRevertedCall] returns a frame of the trace that is such a
    leaf. *)
Theorem findRevertedCall_complete (node f : TraceItem) :
  In f (preorder node) -> erroredLeaf f = true -> type f <> "STATICCALL" ->
  exists g,
    findRevertedCall node = Some g
    /\ In g (preorder node) /\ erroredLeaf g = true /\ type g <> "STATICCALL".
Proof.
  intros Hin Herr Hty. rewrite findRevertedCall_preorder.
  destruct (find revertedLeaf (preorder node)) as [g|] eqn:Hfind.
  - exists g. split; [reflexivity|].
    apply find_some in Hfind as [Hg Hp]. split; [exact Hg|].
    unfold revertedLeaf in Hp. apply andb_true_iff in Hp as [Hp Hs].
    split; [exact Hp|]. apply String.eqb_neq, negb_true_iff, Hs.
  - exfalso. pose proof (find_none _ _ Hfind f Hin) as Hp.
    unfold revertedLeaf in Hp. fold (erroredLeaf f) in Hp.
    rewrite Herr in Hp. cbn in Hp. apply negb_false_iff, String.eqb_eq in Hp.
    contradiction.
Qed.

Lemma findRevertedCall_complete_witness :
  exists g,
    findRevertedCall Scenario.revertedTrace = Some g
    /\ In g (preorder Scenario.revertedTrace) /\ erroredLeaf g = true
    /\ type g <> "STATICCALL".
Proof.
  apply (findRevertedCall_complete Scenario.revertedTrace Scenario.callLeaf).
  - cbn. do 3 right. left. reflexivity.
  - reflexivity.
  - discriminate.
Defined.

(** ** The two verification budgets together *)

Lemma split_shares (overhead : Z) :
  overhead - 1 <= Z.quot (overhead * 57) 100 + Z.quot (overhead * 43) 100
               <= overhead + 1.
Proof.
  Z.to_euclidean_division_equations. lia.
Qed.

(** X4: in an estimate that returns, verificationGasLimit and
    paymasterVerificationGasLimit together differ from preOpGas + 6000 by at
    most one unit: the 57/43 split hands out the whole overhead up to
    rounding. *)
Theorem estimate_budgets_total
    (imp : Imports) (this : MethodHandlerERC4337) (entryPointInput : string)
    (stateOverride : option StateOverride) (u : UserOperation.t)
    (res : EstimateUserOpGasResult.t) :
  produced (estimateUserOperationGas imp this entryPointInput stateOverride u) = inr res ->
  exists trace info,
    provider_traceCall this u stateOverride = inr trace
    /\ decodeSimulateHandleOpResult imp (output trace) = inr info
    /\ preOpGas info + 5999
       <= EstimateUserOpGasResult.verificationGasLimit res
          + EstimateUserOpGasResult.paymasterVerificationGasLimit res
       <= preOpGas info + 6001.
Proof.
  intros H.
  apply estimate_return_inv in H
    as (trace & info & pm & c_exec & c_pm & c_post & c_acct & pvg
        & _ & Ht & _ & Hd & _ & _ & _ & _ & _ & _ & _ & ->).
  exists trace, info. split; [exact Ht|]. split; [exact Hd|].
  cbn [EstimateUserOpGasResult.verificationGasLimit
       EstimateUserOpGasResult.paymasterVerificationGasLimit].
  unfold truncatedShare.
  pose proof (split_shares (preOpGas info - c_acct - c_pm)). lia.
Qed.

Lemma estimate_budgets_total_witness :
  exists trace info,
    provider_traceCall (Scenario.handler Scenario.trace) Scenario.userOp None = inr trace
    /\ decodeSimulateHandleOpResult (Scenario.imports 100000) (output trace) = inr info
    /\ preOpGas info + 5999 <= 61451 + 44548 <= preOpGas info + 6001.
Proof.
  exact (estimate_budgets_total (Scenario.imports 100000)
           (Scenario.handler Scenario.trace) "0xEE" None Scenario.userOp _ eq_refl).
Defined.

Lemma getCallGasLimit_inr (call : option TraceItem) (limit : Z) :
  getCallGasLimit call = inr limit ->
  exists frame,
    call = Some frame /\ truthy (error frame) = false
    /\ limit = scaledLimit (gasUsed frame) (getDepth frame).
Proof.
  destruct call as [frame|]; [|discriminate].
  destruct (truthy (error frame)) eqn:He.
  - unfold getCallGasLimit. rewrite He. discriminate.
  - rewrite (getCallGasLimit_value frame He). intros H. injection H as <-.
    exists frame. repeat split. exact He.
Qed.

(** X5: in an estimate that returns, callGasLimit and paymasterPostOpGasLimit
    are the scaled limits floor(gasUsed * 64^depth / 63^depth) + 2000 of two
    frames of the trace without error: the first frame in depth-first order
    called by the lower-cased entry point on the lower-cased sender with the
    execute selector, and the first one called on the lower-cased paymaster
    with the post-op selector. *)
Theorem estimate_limits_of_frames
    (imp : Imports) (this : MethodHandlerERC4337) (entryPointInput : string)
    (stateOverride : option StateOverride) (u : UserOperation.t)
    (res : EstimateUserOpGasResult.t) :
  produced (estimateUserOperationGas imp this entryPointInput stateOverride u) = inr res ->
  exists trace pm execute postOp,
    provider_traceCall this u stateOverride = inr trace
    /\ UserOperation.paymaster u = Some pm
    /\ find (matchesCall (toLowerCase (entryPoint_address this))
                         (toLowerCase (UserOperation.sender u))
                         EXECUTE_USEROP_SELECTOR) (preorder trace) = Some execute
    /\ find (matchesCall (toLowerCase (entryPoint_address this)) (toLowerCase pm)
                         POSTOP_SELECTOR) (preorder trace) = Some postOp
    /\ truthy (error execute) = false /\ truthy (error postOp) = false
    /\ EstimateUserOpGasResult.callGasLimit res
       = Z.of_N (gasUsed execute) * 64 ^ Z.of_nat (getDepth execute)
         / 63 ^ Z.of_nat (getDepth execute) + 2000
    /\ EstimateUserOpGasResult.paymasterPostOpGasLimit res
       = Z.of_N (gasUsed postOp) * 64 ^ Z.of_nat (getDepth postOp)
         / 63 ^ Z.of_nat (getDepth postOp) + 2000.
Proof.
  intros H.
  apply estimate_return_inv in H
    as (trace & info & pm & c_exec & c_pm & c_post & c_acct & pvg
        & _ & Ht & _ & _ & Hp & Hexec & _ & Hpost & _ & _ & _ & ->).
  apply getCallGasLimit_inr in Hexec as (execute & He & Hee & ->).
  apply getCallGasLimit_inr in Hpost as (postOp & Hq & Hqe & ->).
  unfold executeCallOf in He. unfold postOpCallOf in Hq.
  rewrite getCallFromTrace_preorder in He, Hq.
  exists trace, pm, execute, postOp. repeat split; assumption.
Qed.

Lemma estimate_limits_of_frames_witness :
  exists trace pm execute postOp,
    provider_traceCall (Scenario.handler Scenario.trace) Scenario.userOp None = inr trace
    /\ UserOperation.paymaster Scenario.userOp = Some pm
    /\ find (matchesCall (toLowerCase "0xEE") (toLowerCase "0xAA")
                         EXECUTE_USEROP_SELECTOR) (preorder trace) = Some execute
    /\ find (matchesCall (toLowerCase "0xEE") (toLowerCase pm)
                         POSTOP_SELECTOR) (preorder trace) = Some postOp
    /\ truthy (error execute) = false /\ truthy (error postOp) = false
    /\ 24015 = Z.of_N (gasUsed execute) * 64 ^ Z.of_nat (getDepth execute)
               / 63 ^ Z.of_nat (getDepth execute) + 2000
    /\ 12158 = Z.of_N (gasUsed postOp) * 64 ^ Z.of_nat (getDepth postOp)
               / 63 ^ Z.of_nat (getDepth postOp) + 2000.
Proof.
  exact (estimate_limits_of_frames (Scenario.imports 100000)
           (Scenario.handler Scenario.trace) "0xEE" None Scenario.userOp _ eq_refl).
Defined.

Lemma lower_ascii_idempotent (c : ascii) : lower_ascii (lower_ascii c) = lower_ascii c.
Proof.
  destruct c as [[] [] [] [] [] [] [] []]; reflexivity.
Qed.

Lemma toLowerCase_idempotent (s : string) : toLowerCase (toLowerCase s) = toLowerCase s.
Proof.
  induction s as [|c s IH]; cbn; [reflexivity|].
  now rewrite lower_ascii_idempotent, IH.
Qed.

(** X6: a frame the estimate locates for a marker lies in the trace, its
    caller and callee are the lower-cased addresses searched for, and its
    input starts with the selector; a frame whose caller or callee holds an
    upper-case letter is therefore never located. *)
Theorem located_frame_matches (trace frame : TraceItem) (caller callee selector : string) :
  getCallFromTrace trace (toLowerCase caller) (toLowerCase callee) selector
  = Some frame ->
  In frame (preorder trace)
  /\ from frame = toLowerCase caller /\ to frame = toLowerCase callee
  /\ substring 0 10 (input frame) = selector
  /\ toLowerCase (from frame) = from frame /\ toLowerCase (to frame) = to frame.
Proof.
  rewrite getCallFromTrace_preorder. intros H.
  apply find_some in H as [Hin Hm]. unfold matchesCall in Hm.
  apply andb_true_iff in Hm as [Hm Hsel]. apply andb_true_iff in Hm as [Hf Ht].
  apply String.eqb_eq in Hf, Ht, Hsel.
  repeat split; try assumption.
  - rewrite Hf. apply toLowerCase_idempotent.
  - rewrite Ht. apply toLowerCase_idempotent.
Qed.

Lemma located_frame_matches_witness :
  In Scenario.executeFrame (preorder Scenario.trace)
  /\ from Scenario.executeFrame = toLowerCase "0xEE"
  /\ to Scenario.executeFrame = toLowerCase "0xAA"
  /\ substring 0 10 (input Scenario.executeFrame) = EXECUTE_USEROP_SELECTOR
  /\ toLowerCase (from Scenario.executeFrame) = from Scenario.executeFrame
  /\ toLowerCase (to Scenario.executeFrame) = to Scenario.executeFrame.
Proof.
  apply (located_frame_matches Scenario.trace Scenario.executeFrame "0xEE" "0xAA").
  reflexivity.
Defined.
(** ** Filtering the receipt logs *)

Lemma slice_middle {A : Type} (l1 l2 l3 : list A) :
  Logs.slice (l1 ++ l2 ++ l3)%list (Z.of_nat (length l1))
             (Z.of_nat (length l1) + Z.of_nat (length l2)) = l2.
Proof.
  unfold Logs.slice. rewrite !length_app.
  destruct (Z.ltb_spec (Z.of_nat (length l1)) 0); [lia|].
  destruct (Z.ltb_spec (Z.of_nat (length l1) + Z.of_nat (length l2)) 0); [lia|].
  rewrite !Z.min_l by lia.
  replace (Z.to_nat (Z.of_nat (length l1) + Z.of_nat (length l2) - Z.of_nat (length l1)))
    with (length l2) by lia.
  rewrite Nat2Z.id, skipn_app, skipn_all, Nat.sub_diag. cbn [skipn app].
  rewrite firstn_app, firstn_all, Nat.sub_diag. cbn [firstn]. apply app_nil_r.
Qed.

Lemma in_firstn {A : Type} (n : nat) (l : list A) (x : A) :
  In x (firstn n l) -> In x l.
Proof.
  intros H. rewrite <- (firstn_skipn n l). apply in_or_app. now left.
Qed.

Lemma in_skipn {A : Type} (n : nat) (l : list A) (x : A) :
  In x (skipn n l) -> In x l.
Proof.
  intros H. rewrite <- (firstn_skipn n l). apply in_or_app. now right.
Qed.

Lemma slice_incl_after {A : Type} (l1 l2 : list A) (start end_ : Z) (x : A) :
  Z.of_nat (length l1) <= start ->
  In x (Logs.slice (l1 ++ l2)%list start end_) -> In x l2.
Proof.
  unfold Logs.slice. intros Hs Hin.
  destruct (Z.ltb_spec start 0); [lia|].
  apply in_firstn in Hin. rewrite length_app in Hin.
  rewrite skipn_app in Hin. rewrite skipn_all2 in Hin by lia.
  cbn [app] in Hin. eapply in_skipn. exact Hin.
Qed.

Lemma slice_incl {A : Type} (l : list A) (start end_ : Z) (x : A) :
  In x (Logs.slice l start end_) -> In x l.
Proof.
  unfold Logs.slice. intros Hin. apply in_firstn in Hin.
  eapply in_skipn. exact Hin.
Qed.

Lemma last_occurrence {A : Type} (p : A -> bool) (l : list A) :
  existsb p l = true ->
  exists pre x rest,
    l = (pre ++ x :: rest)%list /\ p x = true /\ forall y, In y rest -> p y = false.
Proof.
  induction l as [|a l IH]; [discriminate|].
  cbn [existsb]. intros H.
  destruct (existsb p l) eqn:Hl.
  - destruct (IH eq_refl) as (pre & x & rest & -> & Hx & Hrest).
    exists (a :: pre), x, rest. repeat split; assumption.
  - rewrite orb_false_r in H. exists [], a, l. repeat split; [exact H|].
    intros y Hy. destruct (p y) eqn:Hp; [|reflexivity].
    assert (existsb p l = true) by (apply existsb_exists; eauto). congruence.
Qed.

Section FilterLogs.

Variable beforeExecutionTopic : string.
Variable userOpEvent : Logs.Log.

Let visit := Logs.visit beforeExecutionTopic userOpEvent.
Let isBefore := Logs.isBeforeExecution beforeExecutionTopic.
Let isEvent := Logs.isUserOperationEvent userOpEvent.
Let isOurs := Logs.hasOurHash userOpEvent.
Let delimits := Logs.delimits beforeExecutionTopic userOpEvent.

Ltac open_visit :=
  subst visit isBefore isEvent isOurs delimits;
  unfold Logs.visit, Logs.delimits in *.

Lemma forEach_append (l1 l2 : list Logs.Log) (index : Z) (st : Z * Z) :
  Logs.forEach visit (l1 ++ l2)%list index st
  = Logs.forEach visit l2 (index + Z.of_nat (length l1))
      (Logs.forEach visit l1 index st).
Proof.
  revert index st. induction l1 as [|x l1 IH]; intros index st.
  - simpl. now rewrite Z.add_0_r.
  - cbn [app Logs.forEach length]. rewrite IH. f_equal. lia.
Qed.

(** Once set, [endIndex] stays set; without a BeforeExecution log
    [startIndex] stays as it is. *)
Lemma forEach_set (l : list Logs.Log) (index start end_ : Z) :
  0 <= index -> end_ <> -1 ->
  snd (Logs.forEach visit l index (start, end_)) <> -1
  /\ ((forall log, In log l -> isBefore log = false) ->
      fst (Logs.forEach visit l index (start, end_)) = start).
Proof.
  revert index start end_.
  induction l as [|x l IH]; intros index start end_ Hi He; [now split|].
  cbn [Logs.forEach]. open_visit.
  destruct (Logs.isBeforeExecution beforeExecutionTopic x) eqn:Hb.
  - destruct (IH (index + 1) index index) as [H1 _]; [lia|lia|].
    split; [exact H1|]. intros H. specialize (H x (or_introl eq_refl)). congruence.
  - assert (Hrest : forall e', e' <> -1 ->
              snd (Logs.forEach (Logs.visit beforeExecutionTopic userOpEvent) l
                     (index + 1) (start, e')) <> -1
              /\ ((forall log, In log (x :: l) ->
                     Logs.isBeforeExecution beforeExecutionTopic log = false) ->
                  fst (Logs.forEach (Logs.visit beforeExecutionTopic userOpEvent) l
                         (index + 1) (start, e')) = start)).
    { intros e' He'. destruct (IH (index + 1) start e') as [H1 H2]; [lia|exact He'|].
      split; [exact H1|]. intros H. apply H2. intros log Hin. apply H. now right. }
    destruct (Logs.isUserOperationEvent userOpEvent x).
    + destruct (Logs.hasOurHash userOpEvent x); [apply Hrest; lia|].
      destruct (Z.eqb_spec end_ (-1)); [contradiction|]. now apply Hrest.
    + now apply Hrest.
Qed.

(** Logs that do not delimit leave the state as it is once [endIndex] is set. *)
Lemma forEach_quiet (l : list Logs.Log) (index start end_ : Z) :
  end_ <> -1 ->
  (forall log, In log l -> delimits log = false) ->
  Logs.forEach visit l index (start, end_) = (start, end_).
Proof.
  revert index. induction l as [|x l IH]; intros index He H; [reflexivity|].
  cbn [Logs.forEach]. pose proof (H x (or_introl eq_refl)) as Hx. open_visit.
  apply orb_false_iff in Hx as [Hb Hx]. rewrite Hb.
  destruct (Logs.isUserOperationEvent userOpEvent x).
  - cbn in Hx. rewrite Hx. destruct (Z.eqb_spec end_ (-1)); [contradiction|].
    apply IH; [exact He|]. intros log Hin. apply H. now right.
  - apply IH; [exact He|]. intros log Hin. apply H. now right.
Qed.

(** Logs that are neither BeforeExecution nor UserOperationEvent leave any
    state as it is. *)
Lemma forEach_plain (l : list Logs.Log) (index : Z) (st : Z * Z) :
  (forall log, In log l -> isBefore log = false /\ isEvent log = false) ->
  Logs.forEach visit l index st = st.
Proof.
  revert index. induction l as [|x l IH]; intros index H; [reflexivity|].
  cbn [Logs.forEach]. destruct (H x (or_introl eq_refl)) as [Hb He].
  open_visit. destruct st as [s e]. rewrite Hb, He.
  apply IH. intros log Hin. apply H. now right.
Qed.

(** Logs that do not delimit leave an unset [endIndex] unset, and only they
    do. *)
Lemma forEach_unset (l : list Logs.Log) (index start : Z) :
  0 <= index ->
  (snd (Logs.forEach visit l index (start, -1)) = -1
   <-> forall log, In log l -> delimits log = false).
Proof.
  revert index start. induction l as [|x l IH]; intros index start Hi.
  - simpl. split; [intros _ log [] | reflexivity].
  - cbn [Logs.forEach].
    assert (Hcons : forall s,
              (snd (Logs.forEach visit l (index + 1) (s, -1)) = -1
               /\ delimits x = false)
              <-> (forall log, In log (x :: l) -> delimits log = false)).
    { intros s. rewrite (IH (index + 1) s) by lia. split.
      - intros [H Hx] log [<-|Hin]; [exact Hx | now apply H].
      - intros H. split; [|apply H; now left].
        intros log Hin. apply H. now right. }
    assert (Hset : forall s e, e <> -1 ->
              snd (Logs.forEach visit l (index + 1) (s, e)) <> -1).
    { intros s e He. apply forEach_set; [lia|exact He]. }
    unfold visit at 2. unfold Logs.visit.
    fold (isBefore x) (isEvent x) (isOurs x).
    assert (Hd : delimits x = isBefore x || (isEvent x && isOurs x)) by reflexivity.
    destruct (isBefore x) eqn:Hb.
    + split.
      * intros H. exfalso. apply (Hset index index); [lia|exact H].
      * intros H. specialize (H x (or_introl eq_refl)). rewrite Hd in H.
        discriminate H.
    + destruct (isEvent x) eqn:He; [destruct (isOurs x) eqn:Ho|].
      * split.
        -- intros H. exfalso. apply (Hset start index); [lia|exact H].
        -- intros H. specialize (H x (or_introl eq_refl)). rewrite Hd in H.
           discriminate H.
      * change (-1 =? -1) with true. cbv iota. rewrite <- (Hcons index). rewrite Hd. cbn. tauto.
      * rewrite <- (Hcons start). rewrite Hd. cbn. tauto.
Qed.

End FilterLogs.

(** X7: [_filterLogs] throws exactly when no log is a BeforeExecution log or a
    UserOperationEvent with the hash of the given event; in particular it
    does not throw when a BeforeExecution log is present and the event itself
    is missing. *)
Theorem filterLogs_throws_iff (beforeExecutionTopic : string)
    (userOpEvent : Logs.Log) (logs : list Logs.Log) :
  Logs._filterLogs beforeExecutionTopic userOpEvent logs
  = inl "fatal: no UserOperationEvent in logs"
  <-> forall log, In log logs ->
        Logs.delimits beforeExecutionTopic userOpEvent log = false.
Proof.
  unfold Logs._filterLogs.
  rewrite <- (forEach_unset beforeExecutionTopic userOpEvent logs 0 (-1)) by lia.
  destruct (Logs.forEach _ logs 0 (-1, -1)) as [s e]. cbn [snd].
  destruct (Z.eqb_spec e (-1)); split; intros H; congruence.
Qed.

(** X8: when the logs hold a BeforeExecution log, later our
    UserOperationEvent, no BeforeExecution log in between or after, and no
    further event with our hash after, [_filterLogs] returns exactly the logs
    between the two, whatever they are. *)
Theorem filterLogs_after_beforeExecution (beforeExecutionTopic : string)
    (userOpEvent : Logs.Log) (pre mid post : list Logs.Log)
    (before ours : Logs.Log) :
  Logs.isBeforeExecution beforeExecutionTopic before = true ->
  (forall log, In log mid ->
     Logs.isBeforeExecution beforeExecutionTopic log = false) ->
  Logs.isBeforeExecution beforeExecutionTopic ours = false ->
  Logs.isUserOperationEvent userOpEvent ours = true ->
  Logs.hasOurHash userOpEvent ours = true ->
  (forall log, In log post ->
     Logs.delimits beforeExecutionTopic userOpEvent log = false) ->
  Logs._filterLogs beforeExecutionTopic userOpEvent
    (pre ++ before :: mid ++ ours :: post)%list = inr mid.
Proof.
  intros Hb Hmid Hob Hoe Hoh Hpost. unfold Logs._filterLogs.
  rewrite forEach_append. cbn [Logs.forEach].
  unfold Logs.visit at 2.
  destruct (Logs.forEach _ pre 0 (-1, -1)) as [s0 e0]. rewrite Hb.
  rewrite forEach_append. cbn [Logs.forEach].
  set (b := 0 + Z.of_nat (length pre)).
  destruct (forEach_set beforeExecutionTopic userOpEvent mid (b + 1) b b)
    as [He Hs]; [lia|lia|].
  specialize (Hs Hmid).
  destruct (Logs.forEach _ mid (b + 1) (b, b)) as [s1 e1]. cbn [fst snd] in *.
  subst s1. unfold Logs.visit at 2. rewrite Hob, Hoe, Hoh.
  rewrite forEach_quiet by (try exact Hpost; lia).
  destruct (Z.eqb_spec (b + 1 + Z.of_nat (length mid)) (-1)); [lia|].
  f_equal.
  replace (pre ++ before :: mid ++ ours :: post)%list
    with ((pre ++ [before]) ++ mid ++ (ours :: post))%list
    by (rewrite <- app_assoc; reflexivity).
  replace (b + 1) with (Z.of_nat (length (pre ++ [before])%list))
    by (rewrite length_app; cbn [length]; lia).
  apply slice_middle.
Qed.

Lemma filterLogs_throws_iff_witness :
  Logs._filterLogs Logs.BEFORE (Logs.opEvent "0x01")
    [Logs.transfer "0x05"; Logs.opEvent "0x02"]
  = inl "fatal: no UserOperationEvent in logs".
Proof.
  apply (proj2 (filterLogs_throws_iff Logs.BEFORE (Logs.opEvent "0x01")
                  [Logs.transfer "0x05"; Logs.opEvent "0x02"])).
  intros log [<-|[<-|[]]]; reflexivity.
Defined.

Lemma filterLogs_after_beforeExecution_witness :
  Logs._filterLogs Logs.BEFORE (Logs.opEvent "0x02")
    [Logs.deposited; Logs.beforeExecution; Logs.transfer "0x05";
     Logs.opEvent "0x01"; Logs.transfer "0x06"; Logs.opEvent "0x02";
     Logs.transfer "0x07"]
  = inr [Logs.transfer "0x05"; Logs.opEvent "0x01"; Logs.transfer "0x06"].
Proof.
  apply (filterLogs_after_beforeExecution Logs.BEFORE (Logs.opEvent "0x02")
           [Logs.deposited]
           [Logs.transfer "0x05"; Logs.opEvent "0x01"; Logs.transfer "0x06"]
           [Logs.transfer "0x07"] Logs.beforeExecution (Logs.opEvent "0x02"));
    try reflexivity.
  - intros log [<-|[<-|[<-|[]]]]; reflexivity.
  - intros log [<-|[]]; reflexivity.
Defined.

(** X9: when no log is a BeforeExecution log, the logs before our
    UserOperationEvent end with the event of another operation (or are
    empty), and no UserOperationEvent lies in between, [_filterLogs] returns
    exactly the logs between that event and ours. *)
Theorem filterLogs_without_beforeExecution (beforeExecutionTopic : string)
    (userOpEvent : Logs.Log) (pre mid post : list Logs.Log) (ours : Logs.Log) :
  (forall log, In log pre ->
     Logs.delimits beforeExecutionTopic userOpEvent log = false) ->
  (pre = [] \/
   exists earlier other,
     pre = (earlier ++ [other])%list
     /\ Logs.isUserOperationEvent userOpEvent other = true) ->
  (forall log, In log mid ->
     Logs.isBeforeExecution beforeExecutionTopic log = false
     /\ Logs.isUserOperationEvent userOpEvent log = false) ->
  Logs.isBeforeExecution beforeExecutionTopic ours = false ->
  Logs.isUserOperationEvent userOpEvent ours = true ->
  Logs.hasOurHash userOpEvent ours = true ->
  (forall log, In log post ->
     Logs.delimits beforeExecutionTopic userOpEvent log = false) ->
  Logs._filterLogs beforeExecutionTopic userOpEvent
    (pre ++ mid ++ ours :: post)%list = inr mid.
Proof.
  intros Hpre Hlast Hmid Hob Hoe Hoh Hpost. unfold Logs._filterLogs.
  assert (Hstate : Logs.forEach (Logs.visit beforeExecutionTopic userOpEvent)
                     pre 0 (-1, -1)
                   = (Z.of_nat (length pre) - 1, -1)).
  { destruct Hlast as [->|(earlier & other & -> & Hev)]; [reflexivity|].
    rewrite forEach_append. cbn [Logs.forEach].
    assert (He : snd (Logs.forEach (Logs.visit beforeExecutionTopic userOpEvent)
                        earlier 0 (-1, -1)) = -1).
    { apply forEach_unset; [lia|]. intros log Hin. apply Hpre.
      apply in_or_app. now left. }
    destruct (Logs.forEach _ earlier 0 (-1, -1)) as [s e]. cbn [snd] in He.
    subst e. unfold Logs.visit.
    assert (Hd : Logs.delimits beforeExecutionTopic userOpEvent other = false)
      by (apply Hpre, in_or_app; right; now left).
    unfold Logs.delimits in Hd. apply orb_false_iff in Hd as [Hb Hd].
    rewrite Hev in Hd. cbn in Hd. rewrite Hb, Hev, Hd.
    change (-1 =? -1) with true. cbv iota.
    rewrite length_app. cbn [length]. f_equal. lia. }
  rewrite forEach_append, Hstate. rewrite forEach_append.
  rewrite (forEach_plain beforeExecutionTopic userOpEvent mid) by exact Hmid.
  cbn [Logs.forEach]. unfold Logs.visit at 2. rewrite Hob, Hoe, Hoh.
  rewrite forEach_quiet by (try exact Hpost; lia).
  destruct (Z.eqb_spec (0 + Z.of_nat (length pre) + Z.of_nat (length mid)) (-1));
    [lia|].
  f_equal.
  replace (Z.of_nat (length pre) - 1 + 1) with (Z.of_nat (length pre)) by lia.
  replace (0 + Z.of_nat (length pre) + Z.of_nat (length mid))
    with (Z.of_nat (length pre) + Z.of_nat (length mid)) by lia.
  apply slice_middle.
Qed.

Lemma filterLogs_without_beforeExecution_witness :
  Logs._filterLogs Logs.BEFORE (Logs.opEvent "0x02")
    [Logs.transfer "0x05"; Logs.opEvent "0x01"; Logs.transfer "0x06";
     Logs.opEvent "0x02"; Logs.transfer "0x07"]
  = inr [Logs.transfer "0x06"].
Proof.
  apply (filterLogs_without_beforeExecution Logs.BEFORE (Logs.opEvent "0x02")
           [Logs.transfer "0x05"; Logs.opEvent "0x01"] [Logs.transfer "0x06"]
           [Logs.transfer "0x07"] (Logs.opEvent "0x02")); try reflexivity.
  - intros log [<-|[<-|[]]]; reflexivity.
  - right. exists [Logs.transfer "0x05"], (Logs.opEvent "0x01").
    split; reflexivity.
  - intros log [<-|[]]; split; reflexivity.
  - intros log [<-|[]]; reflexivity.
Defined.

(** X10: the logs [_filterLogs] returns never hold a BeforeExecution log. *)
Theorem filterLogs_excludes_beforeExecution (beforeExecutionTopic : string)
    (userOpEvent : Logs.Log) (logs result : list Logs.Log) :
  Logs._filterLogs beforeExecutionTopic userOpEvent logs = inr result ->
  forall log, In log result ->
    Logs.isBeforeExecution beforeExecutionTopic log = false.
Proof.
  unfold Logs._filterLogs. intros H log Hin.
  destruct (existsb (Logs.isBeforeExecution beforeExecutionTopic) logs) eqn:Hex.
  - apply last_occurrence in Hex as (pre & x & rest & -> & Hx & Hrest).
    rewrite forEach_append in H. cbn [Logs.forEach] in H.
    unfold Logs.visit at 2 in H.
    destruct (Logs.forEach _ pre 0 (-1, -1)) as [s0 e0]. rewrite Hx in H.
    set (b := 0 + Z.of_nat (length pre)) in H.
    destruct (forEach_set beforeExecutionTopic userOpEvent rest (b + 1) b b)
      as [_ Hs]; [lia|lia|].
    specialize (Hs Hrest).
    destruct (Logs.forEach _ rest (b + 1) (b, b)) as [s1 e1]. cbn [fst] in Hs.
    subst s1. destruct (e1 =? -1); [discriminate H|].
    injection H as <-. apply Hrest.
    replace (pre ++ x :: rest)%list with ((pre ++ [x]) ++ rest)%list in Hin
      by (rewrite <- app_assoc; reflexivity).
    apply slice_incl_after in Hin; [exact Hin|].
    rewrite length_app. cbn [length]. lia.
  - destruct (Logs.forEach _ logs 0 (-1, -1)) as [s e].
    destruct (e =? -1); [discriminate H|]. injection H as <-.
    apply slice_incl in Hin.
    destruct (Logs.isBeforeExecution beforeExecutionTopic log) eqn:Hb;
      [|reflexivity].
    assert (existsb (Logs.isBeforeExecution beforeExecutionTopic) logs = true)
      by (apply existsb_exists; eauto).
    congruence.
Qed.

Lemma filterLogs_excludes_beforeExecution_witness :
  Logs.isBeforeExecution Logs.BEFORE (Logs.opEvent "0x01") = false.
Proof.
  apply (filterLogs_excludes_beforeExecution Logs.BEFORE (Logs.opEvent "0x02")
           [Logs.deposited; Logs.beforeExecution; Logs.transfer "0x05";
            Logs.opEvent "0x01"; Logs.transfer "0x06"; Logs.opEvent "0x02";
            Logs.transfer "0x07"]
           [Logs.transfer "0x05"; Logs.opEvent "0x01"; Logs.transfer "0x06"]).
  - reflexivity.
  - right. left. reflexivity.
Defined.

(** ** Responses of the RPC server *)

(** X11: every response [handleRpc] returns, a result or an error, carries the
    [id] and the [jsonrpc] value of the request item it answers. *)
Theorem handleRpc_echoes_id (h : BundlerServer.Handlers)
    (reqItem : BundlerServer.Json) (r : BundlerServer.Response) :
  BundlerServer.handleRpc h reqItem = inr r ->
  BundlerServer.getProp reqItem "id" = inr (BundlerServer.id r)
  /\ BundlerServer.getProp reqItem "jsonrpc" = inr (BundlerServer.jsonrpc r).
Proof.
  unfold BundlerServer.handleRpc, BundlerServer.destructure, BundlerServer.obind.
  destruct (BundlerServer.getProp reqItem "method") as [e|m]; [discriminate|].
  destruct (BundlerServer.getProp reqItem "params") as [e|p]; [discriminate|].
  destruct (BundlerServer.getProp reqItem "jsonrpc") as [e|j]; [discriminate|].
  destruct (BundlerServer.getProp reqItem "id") as [e|i]; [discriminate|].
  destruct (BundlerServer.handleMethod h m p) as [err|v].
  - destruct (BundlerServer.caught err); [discriminate|].
    intros H. injection H as <-. split; reflexivity.
  - destruct (BundlerServer.deepHexlify h v) as [err|v'].
    + destruct (BundlerServer.caught err); [discriminate|].
      intros H. injection H as <-. split; reflexivity.
    + intros H. injection H as <-. split; reflexivity.
Qed.

Lemma handleRpc_echoes_id_witness :
  BundlerServer.getProp Scenario.request "id" = inr (BundlerServer.JNum 1)
  /\ BundlerServer.getProp Scenario.request "jsonrpc"
     = inr (BundlerServer.JStr "2.0").
Proof.
  exact (handleRpc_echoes_id Scenario.handlers Scenario.request
           (BundlerServer.mkResponse (BundlerServer.JStr "2.0") (BundlerServer.JNum 1)
              (BundlerServer.Result BundlerServer.ok)) eq_refl).
Defined.

Lemma handleAll_Forall2 (h : BundlerServer.Handlers)
    (items : list BundlerServer.Json) (rs : list BundlerServer.Response) :
  BundlerServer.handleAll h items = inr rs
  <-> Forall2 (fun item r => BundlerServer.handleRpc h item = inr r) items rs.
Proof.
  revert rs. induction items as [|item items IH]; intros rs; cbn.
  - split.
    + intros H. injection H as <-. constructor.
    + intros H. inversion H. reflexivity.
  - split.
    + destruct (BundlerServer.handleRpc h item) as [e|r] eqn:Hr; [discriminate|].
      destruct (BundlerServer.handleAll h items) as [e|rs'] eqn:Hall;
        [discriminate|].
      intros H. injection H as <-. constructor; [exact Hr|].
      apply IH. reflexivity.
    + intros H. inversion H as [|? r ? rs' Hh Hrest]; subst.
      apply IH in Hrest. rewrite Hh, Hrest. reflexivity.
Qed.

(** X12: for a batch, [rpc] hands [res.send] one response per request item, in
    the order of the items, each the response [handleRpc] gives for its
    item; it does so exactly when every item gets a response. *)
Theorem rpc_batch (h : BundlerServer.Handlers)
    (items : list BundlerServer.Json) (rs : list BundlerServer.Response) :
  BundlerServer.rpc h (BundlerServer.JArr items) = inr (BundlerServer.Batch rs)
  <-> Forall2 (fun item r => BundlerServer.handleRpc h item = inr r) items rs.
Proof.
  rewrite <- handleAll_Forall2. cbn.
  destruct (BundlerServer.handleAll h items) as [e|rs'].
  - split; discriminate.
  - split; intros H; injection H as ->; reflexivity.
Qed.

Lemma rpc_batch_witness :
  BundlerServer.rpc Scenario.handlers
    (BundlerServer.JArr [Scenario.request; requestOf 2 "eth_call" BundlerServer.JUndefined])
  = inr (BundlerServer.Batch
           [BundlerServer.mkResponse (BundlerServer.JStr "2.0") (BundlerServer.JNum 1)
              (BundlerServer.Result BundlerServer.ok);
            BundlerServer.mkResponse (BundlerServer.JStr "2.0") (BundlerServer.JNum 2)
              (BundlerServer.Error
                 (BundlerServer.mkErrorObject
                    (BundlerServer.JStr "Method eth_call is not supported")
                    BundlerServer.JUndefined (BundlerServer.JNum (-32601))))]).
Proof.
  apply (proj2 (rpc_batch Scenario.handlers _ _)).
  repeat constructor.
Defined.

Lemma not_dispatched (h : BundlerServer.Handlers) (method params : BundlerServer.Json) :
  dispatches (BundlerServer.useRip7560Mode h) method = false ->
  BundlerServer.handleMethod h method params
  = inl (BundlerServer.notSupported h method).
Proof.
  unfold dispatches, BundlerServer.handleMethod.
  destruct method as [| | | |m| |]; try reflexivity.
  intros H. apply orb_false_iff in H as [Hs Hr].
  cbn [servedMethods existsb] in Hs.
  repeat (apply orb_false_iff in Hs as [?E Hs]).
  destruct (BundlerServer.useRip7560Mode h).
  - cbn [andb rip7560Methods existsb] in Hr.
    repeat (apply orb_false_iff in Hr as [?E Hr]).
    repeat match goal with
           | E : (_ =? _)%string = false |- _ => rewrite E; clear E
           end.
    reflexivity.
  - repeat match goal with
           | E : (_ =? _)%string = false |- _ => rewrite E; clear E
           end.
    cbn [negb]. destruct (m =? "eth_sendTransaction")%string; [reflexivity|].
    destruct (m =? "eth_getTransactionReceipt")%string; reflexivity.
Qed.

Lemma joinTexts_throws (texts : list (BundlerServer.Outcome string))
    (e : BundlerServer.Thrown) :
  BundlerServer.joinTexts texts = inl e -> In (inl e) texts.
Proof.
  induction texts as [|text rest IH]; [discriminate|].
  destruct rest as [|text' rest].
  - cbn. intros ->. left. reflexivity.
  - change (BundlerServer.joinTexts (text :: text' :: rest))
      with (match text with
            | inl e => inl e
            | inr t =>
                match BundlerServer.joinTexts (text' :: rest) with
                | inl e => inl e
                | inr r => inr (t ++ "," ++ r)
                end
            end).
    destruct text as [e'|t].
    + intros H. injection H as ->. left. reflexivity.
    + destruct (BundlerServer.joinTexts (text' :: rest)) as [e'|r]; [|discriminate].
      intros H. injection H as ->. right. apply IH. reflexivity.
Qed.

(** The only error of the conversion to text is its TypeError. *)
Lemma templateText_throws (numberText : Z -> string) (v : BundlerServer.Json)
    (e : BundlerServer.Thrown) :
  BundlerServer.templateText numberText v = inl e ->
  e = BundlerServer.typeError BundlerServer.CANNOT_CONVERT.
Proof.
  revert v e.
  fix IH 1. intros v e. destruct v as [| |[|]|n|s0|items|fields]; cbn;
    try discriminate.
  - intros H. apply joinTexts_throws in H.
    induction items as [|x items IHitems]; [destruct H|].
    destruct H as [H|H]; [|exact (IHitems H)].
    destruct (BundlerServer.isNullish x); [discriminate H|].
    exact (IH x e H).
  - destruct (existsb _ fields); [|discriminate].
    intros H. injection H as <-. reflexivity.
Qed.

(** X13: a request item whose method is not a string, is not a method of the
    dispatch table, or is a RIP-7560 method while that mode is off, is
    answered with an error object and the id of the request, whatever the
    handlers are.  The error object has code -32601 and the message
    [Method <text> is not supported], where the text is the one the method
    value has inside a template literal: the method itself when it is a
    string.  A method value without such a text (an object with an own
    [toString] property, alone or inside arrays) is answered with the
    TypeError of the conversion instead, which has no code. *)
Theorem handleRpc_unsupported_method (h : BundlerServer.Handlers)
    (reqItem method : BundlerServer.Json) :
  BundlerServer.getProp reqItem "method" = inr method ->
  dispatches (BundlerServer.useRip7560Mode h) method = false ->
  exists jsonrpc id,
    BundlerServer.getProp reqItem "jsonrpc" = inr jsonrpc
    /\ BundlerServer.getProp reqItem "id" = inr id
    /\ BundlerServer.handleRpc h reqItem
       = inr (BundlerServer.mkResponse jsonrpc id
                (BundlerServer.Error
                   match BundlerServer.templateText (BundlerServer.numberText h) method with
                   | inr text =>
                       BundlerServer.mkErrorObject
                         (BundlerServer.JStr ("Method " ++ text ++ " is not supported"))
                         BundlerServer.JUndefined (BundlerServer.JNum (-32601))
                   | inl _ =>
                       BundlerServer.mkErrorObject
                         (BundlerServer.JStr BundlerServer.CANNOT_CONVERT)
                         BundlerServer.JUndefined BundlerServer.JUndefined
                   end))
    /\ (forall m, method = BundlerServer.JStr m ->
          BundlerServer.templateText (BundlerServer.numberText h) method = inr m).
Proof.
  intros Hm Hd.
  assert (Hn : BundlerServer.isNullish reqItem = false)
    by (destruct reqItem; try reflexivity; discriminate Hm).
  destruct (handleRpc_responds h reqItem Hn) as (m & p & j & i & Hdes & Hrpc).
  unfold BundlerServer.destructure, BundlerServer.obind in Hdes.
  rewrite Hm in Hdes.
  destruct (BundlerServer.getProp reqItem "params") as [e|p']; [discriminate|].
  destruct (BundlerServer.getProp reqItem "jsonrpc") as [e|j']; [discriminate|].
  destruct (BundlerServer.getProp reqItem "id") as [e|i']; [discriminate|].
  injection Hdes as <- <- <- <-.
  exists j', i'. split; [reflexivity|]. split; [reflexivity|]. split.
  - rewrite Hrpc, (not_dispatched h method p' Hd).
    unfold BundlerServer.notSupported.
    destruct (BundlerServer.templateText (BundlerServer.numberText h) method)
      as [e|text] eqn:Htext; [|reflexivity].
    rewrite (templateText_throws _ _ _ Htext). reflexivity.
  - intros m0 ->. reflexivity.
Qed.

Lemma handleRpc_unsupported_method_witness :
  BundlerServer.handleRpc Scenario.handlers
    (requestOf 9 "eth_sendTransaction" (BundlerServer.JArr []))
  = inr (BundlerServer.mkResponse (BundlerServer.JStr "2.0") (BundlerServer.JNum 9)
           (BundlerServer.Error
              (BundlerServer.mkErrorObject
                 (BundlerServer.JStr "Method eth_sendTransaction is not supported")
                 BundlerServer.JUndefined (BundlerServer.JNum (-32601)))))
  /\ BundlerServer.handleRpc Scenario.handlers objectMethodRequest
     = inr (BundlerServer.mkResponse (BundlerServer.JStr "2.0") (BundlerServer.JNum 3)
              (BundlerServer.Error
                 (BundlerServer.mkErrorObject
                    (BundlerServer.JStr "Cannot convert object to primitive value")
                    BundlerServer.JUndefined BundlerServer.JUndefined)))
  /\ BundlerServer.handleRpc Scenario.handlers arrayMethodRequest
     = inr (BundlerServer.mkResponse (BundlerServer.JStr "2.0") (BundlerServer.JNum 4)
              (BundlerServer.Error
                 (BundlerServer.mkErrorObject
                    (BundlerServer.JStr
                       "Method eth_chainId,,[object Object] is not supported")
                    BundlerServer.JUndefined (BundlerServer.JNum (-32601))))).
Proof.
  split; [|split].
  - destruct (handleRpc_unsupported_method Scenario.handlers
                (requestOf 9 "eth_sendTransaction" (BundlerServer.JArr []))
                (BundlerServer.JStr "eth_sendTransaction") eq_refl eq_refl)
      as (jsonrpc & id & Hj & Hi & H & _).
    injection Hj as <-. injection Hi as <-. exact H.
  - destruct (handleRpc_unsupported_method Scenario.handlers objectMethodRequest
                (BundlerServer.JObj [("toString", BundlerServer.JNum 1)])
                eq_refl eq_refl)
      as (jsonrpc & id & Hj & Hi & H & _).
    injection Hj as <-. injection Hi as <-. exact H.
  - destruct (handleRpc_unsupported_method Scenario.handlers arrayMethodRequest
                (BundlerServer.JArr [BundlerServer.JStr "eth_chainId";
                                     BundlerServer.JNull; BundlerServer.JObj []])
                eq_refl eq_refl)
      as (jsonrpc & id & Hj & Hi & H & _).
    injection Hj as <-. injection Hi as <-. exact H.
Defined.

(** X14: on a server started without the debug RPC, a request for any of the
    ten debug_bundler methods, with parameters that are not null or
    undefined, is answered with an error object of code -32601 whose message
    names the method; it never gets a result. *)
Theorem debug_methods_disabled (h : BundlerServer.Handlers)
    (reqItem params : BundlerServer.Json) (method : string) :
  In method debugMethods ->
  BundlerServer.getProp reqItem "method"
  = inr (BundlerServer.JStr ("debug_bundler_" ++ method)) ->
  BundlerServer.getProp reqItem "params" = inr params ->
  BundlerServer.isNullish params = false ->
  exists jsonrpc id,
    BundlerServer.getProp reqItem "jsonrpc" = inr jsonrpc
    /\ BundlerServer.getProp reqItem "id" = inr id
    /\ BundlerServer.handleRpc (withoutDebugRpc h) reqItem
       = inr (BundlerServer.mkResponse jsonrpc id
                (BundlerServer.Error
                   (BundlerServer.mkErrorObject
                      (BundlerServer.JStr
                         ("method debug_bundler_" ++ method ++ " is not supported"))
                      BundlerServer.JUndefined (BundlerServer.JNum (-32601))))).
Proof.
  intros Hin Hm Hp Hn.
  assert (Hr : BundlerServer.isNullish reqItem = false)
    by (destruct reqItem; try reflexivity; discriminate Hm).
  destruct (handleRpc_responds (withoutDebugRpc h) reqItem Hr)
    as (m & p & j & i & Hdes & Hrpc).
  unfold BundlerServer.destructure, BundlerServer.obind in Hdes.
  rewrite Hm, Hp in Hdes.
  destruct (BundlerServer.getProp reqItem "jsonrpc") as [e|j']; [discriminate|].
  destruct (BundlerServer.getProp reqItem "id") as [e|i']; [discriminate|].
  injection Hdes as <- <- <- <-.
  exists j', i'. split; [reflexivity|]. split; [reflexivity|].
  rewrite Hrpc. clear Hrpc Hm Hp Hr.
  assert (Hidx : forall k, exists v, BundlerServer.getIndex params k = inr v)
    by (intros k; destruct params; try discriminate Hn; eexists; reflexivity).
  destruct (Hidx 0%nat) as [v0 H0]. destruct (Hidx 1%nat) as [v1 H1].
  cbn in Hin.
  repeat (destruct Hin as [<-|Hin];
          [cbn; rewrite ?H0; cbn; rewrite ?H1; reflexivity|]).
  destruct Hin.
Qed.

Lemma debug_methods_disabled_witness :
  exists jsonrpc id,
    BundlerServer.getProp
      (requestOf 3 "debug_bundler_setReputation" (BundlerServer.JArr [])) "jsonrpc"
    = inr jsonrpc
    /\ BundlerServer.getProp
         (requestOf 3 "debug_bundler_setReputation" (BundlerServer.JArr [])) "id"
       = inr id
    /\ BundlerServer.handleRpc (withoutDebugRpc Scenario.handlers)
         (requestOf 3 "debug_bundler_setReputation" (BundlerServer.JArr []))
       = inr (BundlerServer.mkResponse jsonrpc id
                (BundlerServer.Error
                   (BundlerServer.mkErrorObject
                      (BundlerServer.JStr
                         "method debug_bundler_setReputation is not supported")
                      BundlerServer.JUndefined (BundlerServer.JNum (-32601))))).
Proof.
  apply (debug_methods_disabled Scenario.handlers
           (requestOf 3 "debug_bundler_setReputation" (BundlerServer.JArr []))
           (BundlerServer.JArr []) "setReputation"); try reflexivity.
  cbn. tauto.
Defined.

(** ** Objects, configuration and simulation parameters *)

Lemma lookup_setProp (k k' : string) (v : BundlerServer.Json) (o : Objects.Object) :
  BundlerServer.lookup k (Objects.setProp k' v o)
  = if (k =? k')%string then v else BundlerServer.lookup k o.
Proof.
  induction o as [|[k0 v0] o IH]; cbn.
  - destruct (k =? k')%string; reflexivity.
  - destruct (String.eqb_spec k' k0) as [->|Hne]; cbn.
    + destruct (k =? k0)%string; reflexivity.
    + rewrite IH. destruct (String.eqb_spec k k0) as [->|Hk]; [|reflexivity].
      destruct (String.eqb_spec k0 k'); [congruence|reflexivity].
Qed.


Lemma hasOwn_in (k : string) (o : Objects.Object) :
  Objects.hasOwn k o = true <-> In k (map fst o).
Proof.
  unfold Objects.hasOwn. rewrite existsb_exists, in_map_iff. split.
  - intros (p & Hin & Heq). apply String.eqb_eq in Heq. exists p. now split.
  - intros (p & Heq & Hin). exists p. split; [exact Hin|].
    apply String.eqb_eq. now symmetry.
Qed.

Lemma lookup_missing (k : string) (o : Objects.Object) :
  Objects.hasOwn k o = false -> BundlerServer.lookup k o = BundlerServer.JUndefined.
Proof.
  unfold Objects.hasOwn. induction o as [|[k0 v0] o IH]; cbn; [reflexivity|].
  destruct (k =? k0)%string; [discriminate|exact IH].
Qed.

(** Copying the properties of a source over a target: a property of the
    source wins, the others stay. *)
Lemma lookup_assign (k : string) (target : Objects.Object) (source : BundlerServer.Json) :
  Objects.uniqueKeys source ->
  BundlerServer.lookup k (Objects.assign target source)
  = if Objects.hasOwn k (Objects.ownProps source)
    then BundlerServer.lookup k (Objects.ownProps source)
    else BundlerServer.lookup k target.
Proof.
  unfold Objects.assign, Objects.uniqueKeys.
  generalize (Objects.ownProps source) as s. intros s. revert target.
  induction s as [|[k0 v0] s IH]; intros target Hnd; [reflexivity|].
  cbn [fold_left fst snd map] in *. inversion Hnd as [|? ? Hnotin Hnd']; subst.
  rewrite (IH _ Hnd'). unfold Objects.hasOwn at 2. cbn [existsb fst BundlerServer.lookup].
  fold (Objects.hasOwn k s).
  destruct (String.eqb_spec k k0) as [->|Hne]; cbn [orb].
  - destruct (Objects.hasOwn k0 s) eqn:Hh.
    + exfalso. apply Hnotin, hasOwn_in, Hh.
    + rewrite lookup_setProp, String.eqb_refl. reflexivity.
  - destruct (Objects.hasOwn k s); [reflexivity|].
    rewrite lookup_setProp. destruct (String.eqb_spec k k0); [congruence|reflexivity].
Qed.

Lemma getCommandLineParams_fold (shape : list string) (opts acc : Objects.Object)
    (k : string) :
  BundlerServer.lookup k
    (fold_left
       (fun params key =>
          let optionValue := BundlerServer.lookup key opts in
          if negb (BundlerServer.isNullish optionValue)
          then Objects.setProp key optionValue params
          else params) shape acc)
  = if existsb (String.eqb k) shape
       && negb (BundlerServer.isNullish (BundlerServer.lookup k opts))
    then BundlerServer.lookup k opts
    else BundlerServer.lookup k acc.
Proof.
  revert acc. induction shape as [|key shape IH]; intros acc; [reflexivity|].
  cbn [fold_left existsb]. rewrite IH. cbv zeta.
  destruct (String.eqb_spec k key) as [->|Hne].
  - destruct (existsb (String.eqb key) shape);
      destruct (negb (BundlerServer.isNullish (BundlerServer.lookup key opts)));
      cbn [andb orb]; rewrite ?lookup_setProp, ?String.eqb_refl; reflexivity.
  - assert (Hk : (k =? key)%string = false) by (apply String.eqb_neq, Hne).
    destruct (existsb (String.eqb k) shape);
      destruct (negb (BundlerServer.isNullish (BundlerServer.lookup k opts)));
      destruct (negb (BundlerServer.isNullish (BundlerServer.lookup key opts)));
      cbn [andb orb]; rewrite ?lookup_setProp, ?Hk; reflexivity.
Qed.

Lemma hasOwn_setProp (k k' : string) (v : BundlerServer.Json) (o : Objects.Object) :
  Objects.hasOwn k (Objects.setProp k' v o)
  = (k =? k')%string || Objects.hasOwn k o.
Proof.
  unfold Objects.hasOwn. induction o as [|[k0 v0] o IH]; cbn.
  - now rewrite orb_false_r.
  - destruct (String.eqb_spec k' k0) as [->|Hne]; cbn.
    + destruct (k =? k0)%string; reflexivity.
    + rewrite IH. destruct (k =? k0)%string, (k =? k')%string; reflexivity.
Qed.

Lemma getCommandLineParams_hasOwn_fold (shape : list string)
    (opts acc : Objects.Object) (k : string) :
  Objects.hasOwn k
    (fold_left
       (fun params key =>
          let optionValue := BundlerServer.lookup key opts in
          if negb (BundlerServer.isNullish optionValue)
          then Objects.setProp key optionValue params
          else params) shape acc)
  = existsb (String.eqb k) shape
    && negb (BundlerServer.isNullish (BundlerServer.lookup k opts))
    || Objects.hasOwn k acc.
Proof.
  revert acc. induction shape as [|key shape IH]; intros acc; [reflexivity|].
  cbn [fold_left existsb]. rewrite IH. cbv zeta.
  destruct (String.eqb_spec k key) as [->|Hne].
  - destruct (existsb (String.eqb key) shape);
      destruct (negb (BundlerServer.isNullish (BundlerServer.lookup key opts)));
      cbn [andb orb]; rewrite ?hasOwn_setProp, ?String.eqb_refl; reflexivity.
  - assert (Hk : (k =? key)%string = false) by (apply String.eqb_neq, Hne).
    destruct (existsb (String.eqb k) shape);
      destruct (negb (BundlerServer.isNullish (BundlerServer.lookup k opts)));
      destruct (negb (BundlerServer.isNullish (BundlerServer.lookup key opts)));
      cbn [andb orb]; rewrite ?hasOwn_setProp, ?Hk; reflexivity.
Qed.

Lemma getCommandLineParams_hasOwn (shape : list string) (opts : Objects.Object)
    (k : string) :
  Objects.hasOwn k (Config.getCommandLineParams shape opts)
  = existsb (String.eqb k) shape
    && negb (BundlerServer.isNullish (BundlerServer.lookup k opts)).
Proof.
  unfold Config.getCommandLineParams.
  rewrite getCommandLineParams_hasOwn_fold. apply orb_false_r.
Qed.


Lemma getCommandLineParams_value (shape : list string) (opts : Objects.Object)
    (k : string) :
  BundlerServer.lookup k (Config.getCommandLineParams shape opts)
  = if existsb (String.eqb k) shape
       && negb (BundlerServer.isNullish (BundlerServer.lookup k opts))
    then BundlerServer.lookup k opts
    else BundlerServer.JUndefined.
Proof.
  unfold Config.getCommandLineParams. apply getCommandLineParams_fold.
Qed.

(** X15: the parameters [getCommandLineParams] returns hold exactly the options
    that are keys of the configuration shape and whose value is neither null
    nor undefined, each with the value of the option; every other name is
    absent from them and reads as undefined. *)
Theorem getCommandLineParams_lookup (shape : list string) (opts : Objects.Object)
    (k : string) :
  Objects.hasOwn k (Config.getCommandLineParams shape opts)
  = existsb (String.eqb k) shape
    && negb (BundlerServer.isNullish (BundlerServer.lookup k opts))
  /\ BundlerServer.lookup k (Config.getCommandLineParams shape opts)
     = if Objects.hasOwn k (Config.getCommandLineParams shape opts)
       then BundlerServer.lookup k opts
       else BundlerServer.JUndefined.
Proof.
  split; [apply getCommandLineParams_hasOwn|].
  rewrite getCommandLineParams_hasOwn. apply getCommandLineParams_value.
Qed.


(** The file of the sample with a [__proto__] key: the key becomes the
    prototype of the configuration and is not among its own properties. *)
Example resolveConfiguration_proto_key :
  Config.resolveConfiguration Config.sampleShape (fun _ => None)
    Config.sampleDefault (Some (inr Config.protoFile)) Config.sampleOpts
  = inr (Config.mkMerged
           (Some (BundlerServer.JObj [("network", BundlerServer.JStr "hardhat")]))
           [("port", BundlerServer.JStr "4337");
            ("unsafe", BundlerServer.JBool true)]).
Proof. reflexivity. Qed.



(** X17: the parameters of the simulation call always give the entry point
    address the simulation bytecode as [code], whatever code the caller's
    overrides name for it; every other field the caller overrides for the
    entry point, and the overrides of every other address, are passed on
    unchanged. *)
Theorem simulationRpcParams_overrides
    (encodeFunctionData :
       string -> BundlerServer.Json -> list BundlerServer.Json
       -> BundlerServer.Outcome string)
    (deployedBytecode methodName entryPointAddress data : string)
    (userOp : BundlerServer.Json) (extraParams : list BundlerServer.Json)
    (extraOptions : BundlerServer.Json) :
  encodeFunctionData methodName userOp extraParams = inr data ->
  extraOptions <> BundlerServer.JNull ->
  Objects.uniqueKeys (RpcSimulate.optionsOf extraOptions) ->
  Objects.uniqueKeys
    (BundlerServer.lookup entryPointAddress
       (Objects.ownProps (RpcSimulate.optionsOf extraOptions))) ->
  exists overrides entry,
    RpcSimulate.simulationRpcParams encodeFunctionData deployedBytecode methodName
      entryPointAddress userOp extraParams extraOptions
    = inr (BundlerServer.JArr
             [BundlerServer.JObj [("to", BundlerServer.JStr entryPointAddress);
                                  ("data", BundlerServer.JStr data)];
              BundlerServer.JStr "latest";
              BundlerServer.JObj
                [("tracer", BundlerServer.JStr "callTracer");
                 ("enableReturnData", BundlerServer.JBool true);
                 ("stateOverrides", BundlerServer.JObj overrides)]])
    /\ BundlerServer.lookup entryPointAddress overrides = BundlerServer.JObj entry
    /\ BundlerServer.lookup "code" entry = BundlerServer.JStr deployedBytecode
    /\ (forall field, field <> "code" ->
          BundlerServer.lookup field entry
          = BundlerServer.lookup field
              (Objects.ownProps
                 (BundlerServer.lookup entryPointAddress
                    (Objects.ownProps (RpcSimulate.optionsOf extraOptions)))))
    /\ (forall address, address <> entryPointAddress ->
          BundlerServer.lookup address overrides
          = BundlerServer.lookup address
              (Objects.ownProps (RpcSimulate.optionsOf extraOptions))).
Proof.
  intros Henc Hnull Huniq Hinner. unfold RpcSimulate.simulationRpcParams.
  rewrite Henc.
  assert (Hopt : RpcSimulate.optionsOf extraOptions <> BundlerServer.JNull)
    by (destruct extraOptions; cbn; congruence).
  set (options := RpcSimulate.optionsOf extraOptions) in *.
  set (inner := BundlerServer.lookup entryPointAddress (Objects.ownProps options)) in *.
  assert (Hsingle : forall entry,
            Objects.uniqueKeys (BundlerServer.JObj [(entryPointAddress, entry)]))
    by (intros; repeat constructor; intros []).
  assert (Hover : forall entry address,
            BundlerServer.lookup address
              (Objects.assign (Objects.assign [] options)
                 (BundlerServer.JObj [(entryPointAddress, BundlerServer.JObj entry)]))
            = if (address =? entryPointAddress)%string
              then BundlerServer.JObj entry
              else BundlerServer.lookup address (Objects.ownProps options)).
  { intros entry address. rewrite (lookup_assign _ _ _ (Hsingle _)).
    cbn [Objects.ownProps Objects.hasOwn existsb fst BundlerServer.lookup orb].
    rewrite orb_false_r.
    destruct (address =? entryPointAddress)%string; [reflexivity|].
    rewrite (lookup_assign _ _ _ Huniq).
    destruct (Objects.hasOwn address (Objects.ownProps options)) eqn:Hh;
      [reflexivity|].
    rewrite (lookup_missing _ _ Hh). reflexivity. }
  assert (Hother : forall entry address, address <> entryPointAddress ->
            BundlerServer.lookup address
              (Objects.assign (Objects.assign [] options)
                 (BundlerServer.JObj [(entryPointAddress, BundlerServer.JObj entry)]))
            = BundlerServer.lookup address (Objects.ownProps options)).
  { intros entry address Hne. rewrite Hover.
    destruct (String.eqb_spec address entryPointAddress); [contradiction|reflexivity]. }
  assert (Hcase : forall (A : Type) (a b : A),
            match options with BundlerServer.JNull => a | _ => b end = b)
    by (intros; destruct options; congruence).
  rewrite Hcase.
  destruct (Objects.hasOwn entryPointAddress (Objects.ownProps options)) eqn:Hh.
  - eexists. exists (Objects.setProp "code" (BundlerServer.JStr deployedBytecode)
                       (Objects.assign [] inner)).
    split; [reflexivity|].
    split; [rewrite Hover, String.eqb_refl; reflexivity|].
    split; [rewrite lookup_setProp; reflexivity|].
    split; [|intros address Hne; apply Hother, Hne].
    intros field Hf. rewrite lookup_setProp.
    destruct (String.eqb_spec field "code"); [contradiction|].
    rewrite (lookup_assign _ _ _ Hinner).
    destruct (Objects.hasOwn field (Objects.ownProps inner)) eqn:Hi; [reflexivity|].
    rewrite (lookup_missing _ _ Hi). reflexivity.
  - eexists. exists [("code", BundlerServer.JStr deployedBytecode)].
    split; [reflexivity|].
    split; [rewrite Hover, String.eqb_refl; reflexivity|].
    split; [reflexivity|].
    split; [|intros address Hne; apply Hother, Hne].
    intros field Hf. cbn [BundlerServer.lookup].
    destruct (String.eqb_spec field "code"); [contradiction|].
    subst inner. rewrite (lookup_missing _ _ Hh). reflexivity.
Qed.

Lemma simulationRpcParams_overrides_witness :
  exists overrides entry,
    RpcSimulate.simulationRpcParams RpcSimulate.sampleEncode "0x6080"
      "simulateHandleOp" "0xEE" (BundlerServer.JObj []) [] RpcSimulate.sampleOverrides
    = inr (BundlerServer.JArr
             [BundlerServer.JObj [("to", BundlerServer.JStr "0xEE");
                                  ("data", BundlerServer.JStr "0x97b2dcb9")];
              BundlerServer.JStr "latest";
              BundlerServer.JObj
                [("tracer", BundlerServer.JStr "callTracer");
                 ("enableReturnData", BundlerServer.JBool true);
                 ("stateOverrides", BundlerServer.JObj overrides)]])
    /\ BundlerServer.lookup "0xEE" overrides = BundlerServer.JObj entry
    /\ BundlerServer.lookup "code" entry = BundlerServer.JStr "0x6080"
    /\ BundlerServer.lookup "balance" entry = BundlerServer.JStr "0x10"
    /\ BundlerServer.lookup "0xAA" overrides
       = BundlerServer.JObj [("balance", BundlerServer.JStr "0x20")].
Proof.
  destruct (simulationRpcParams_overrides RpcSimulate.sampleEncode "0x6080"
              "simulateHandleOp" "0xEE" "0x97b2dcb9" (BundlerServer.JObj []) []
              RpcSimulate.sampleOverrides eq_refl)
    as (overrides & entry & Hrun & Hentry & Hcode & Hfields & Hothers).
  - discriminate.
  - repeat constructor; cbn; intuition discriminate.
  - repeat constructor; cbn; intuition discriminate.
  - exists overrides, entry. split; [exact Hrun|]. split; [exact Hentry|].
    split; [exact Hcode|]. split.
    + rewrite Hfields by discriminate. reflexivity.
    + rewrite Hothers by discriminate. reflexivity.
Defined.

(** ** Accepted request parameters *)

Section ValidateParameters.

Variable hp : Validation.Helpers.
Variable config_entryPoint : string.

(** [requireCond] returns exactly when its condition holds. *)
Hypothesis requireCond_spec :
  forall cond msg code, Validation.requireCond hp cond msg code = None <-> cond = true.

Lemma checkField_accepts (userOp : BundlerServer.Json) (key : string) :
  Validation.checkField hp userOp key = None
  <-> exists v,
        BundlerServer.getProp userOp key = inr v
        /\ BundlerServer.isNullish v = false
        /\ Validation.HEX_REGEX (BundlerServer.toText v) = true.
Proof.
  unfold Validation.checkField.
  destruct (BundlerServer.getProp userOp key) as [e|v].
  - split; [discriminate|]. intros (v & H & _). discriminate H.
  - destruct (Validation.requireCond hp (negb (BundlerServer.isNullish v)) _ _)
      as [e|] eqn:Hc.
    + split; [discriminate|]. intros (v' & H & Hn & _). injection H as <-.
      rewrite Hn in Hc. change (negb false) with true in Hc.
      rewrite (proj2 (requireCond_spec true _ _) eq_refl) in Hc. discriminate Hc.
    + apply requireCond_spec, negb_true_iff in Hc. rewrite Hc.
      rewrite requireCond_spec. split.
      * intros H. exists v. repeat split; assumption.
      * intros (v' & H & _ & Hx). injection H as <-. exact Hx.
Qed.

Lemma forEachKey_accepts (f : string -> option BundlerServer.Thrown)
    (keys : list string) :
  Validation.forEachKey f keys = None <-> forall key, In key keys -> f key = None.
Proof.
  induction keys as [|k keys IH]; cbn.
  - split; [intros _ key []|reflexivity].
  - destruct (f k) eqn:Hk.
    + split; [discriminate|]. intros H. specialize (H k (or_introl eq_refl)).
      congruence.
    + rewrite IH. split.
      * intros H key [<-|Hin]; [exact Hk|now apply H].
      * intros H key Hin. apply H. now right.
Qed.

(** X18: [_validateParameters] returns, rather than throws, exactly for a
    request whose entry point equals the configured one up to letter case,
    whose operation has every required field with a text that is 0x or 0X
    followed by hex digits only, and that passes the two checks of the
    paymaster and factory fields. *)
Theorem validateParameters_accepts
    (userOp1 entryPointInput : BundlerServer.Json)
    (requireSignature requireGasParams : bool) :
  Validation._validateParameters hp config_entryPoint userOp1 entryPointInput
    requireSignature requireGasParams = None
  <-> Validation.wellFormed hp config_entryPoint userOp1 entryPointInput
        requireSignature requireGasParams.
Proof.
  unfold Validation._validateParameters, Validation.wellFormed,
    Validation.otherEntryPoint.
  destruct (Validation.requireCond hp (negb (BundlerServer.isNullish entryPointInput))
              _ _) as [e|] eqn:H1.
  { split; [discriminate|]. intros (Hn & _). rewrite Hn in H1.
    change (negb false) with true in H1.
    rewrite (proj2 (requireCond_spec true _ _) eq_refl) in H1. discriminate H1. }
  apply requireCond_spec, negb_true_iff in H1. rewrite H1.
  destruct (String.eqb_spec (toLowerCase (BundlerServer.toText entryPointInput))
              (toLowerCase config_entryPoint)) as [Heq|Hne]; cbn [negb].
  2: { split; [discriminate|]. intros (_ & Heq & _). contradiction. }
  destruct (Validation.requireCond hp (negb (BundlerServer.isNullish userOp1)) _ _)
    as [e|] eqn:H2.
  { split; [discriminate|]. intros (_ & _ & Hn & _). rewrite Hn in H2.
    change (negb false) with true in H2.
    rewrite (proj2 (requireCond_spec true _ _) eq_refl) in H2. discriminate H2. }
  apply requireCond_spec, negb_true_iff in H2.
  destruct (Validation.forEachKey _ _) as [e|] eqn:H3.
  { split; [discriminate|]. intros (_ & _ & _ & Hall & _).
    assert (Validation.forEachKey (Validation.checkField hp userOp1)
              (Validation.fieldsOf requireSignature requireGasParams) = None).
    { apply forEachKey_accepts. intros key Hin. apply checkField_accepts, Hall, Hin. }
    congruence. }
  rewrite forEachKey_accepts in H3.
  destruct (Validation.requireAddressAndFields hp userOp1 "paymaster" _ _) as [e|] eqn:H4.
  { split; [discriminate|]. intros (_ & _ & _ & _ & H & _). discriminate H. }
  split.
  - intros H5. repeat split; try assumption.
    intros key Hin. apply checkField_accepts, H3, Hin.
  - intros (_ & _ & _ & _ & _ & H5). exact H5.
Qed.

End ValidateParameters.

Lemma validateParameters_accepts_witness :
  Validation._validateParameters Validation.sampleHelpers "0xEE"
    Validation.sampleUserOp (BundlerServer.JStr "0xee") true false = None.
Proof.
  apply (validateParameters_accepts Validation.sampleHelpers "0xEE").
  - intros [] msg code; cbn; split; congruence.
  - repeat split.
    intros key Hin. cbn in Hin.
    repeat (destruct Hin as [<-|Hin]; [eexists; repeat split|]).
    destruct Hin.
Defined.
